(** * SurfaceBufferRelay: the zero-copy relay between the camera queue and the
    encoder queue (sinkservice/distributedcameramgr/surface_buffer_relay.cpp).

    The engine is embedded as explicit state passing.  Every member function
    of the class becomes a computation in a small monad that threads the
    object's fields, appends to a log of the actions performed (calls on the
    two queue endpoints, the metadata callback, writes to the object's own
    fields) and can stop with a fault when a call is made through a null
    [sptr].  The answers of the collaborators (queue runtime, encoder) to the
    calls made during one entry into the engine are given by a [World].
    Logging macros (DHLOGx) are not part of the model. *)

From Stdlib Require Import ZArith List Bool Lia Strings.Byte.
From stdpp Require Import base option list gmap.
Import ListNotations.
Local Open Scope Z_scope.

(** ** Result codes *)

(** Modelled from the spec: the header distributed_camera_errno.h is not among
    the sources.  The spec speaks of "small integer result codes
    distinguishing initialization failure, invalid argument, and operation
    failed classes"; the four codes the relay returns are kept as distinct
    symbols, no numeric value is assumed. *)
Inductive DCameraErrno : Type :=
| DCAMERA_OK
| DCAMERA_BAD_VALUE
| DCAMERA_INIT_ERR
| DCAMERA_BAD_OPERATE.

(** Modelled from the spec: surface_type.h is not among the sources.  A queue
    call either succeeds ([GSERROR_OK]) or fails with some other code; the
    relay only ever compares against [GSERROR_OK]. *)
Inductive GSError : Type :=
| GSERROR_OK
| GSERROR_FAIL (code : Z).

#[global] Instance GSError_eq_dec : EqDecision GSError.
Proof. solve_decision. Defined.

#[global] Instance DCameraErrno_eq_dec : EqDecision DCameraErrno.
Proof. solve_decision. Defined.

(** ** Constants of surface_buffer_relay.h *)

Definition ATTRKEY_ROI_METADATA : Z := 4101.
Definition IMU_DATA_SIZE : nat := 768.

(** ** Collaborator objects *)

(** Objects reached through an [sptr] are identified by their address; a
    null [sptr] is [None]. *)
Definition ConsumerSurfaceRef := Z.   (* sptr<IConsumerSurface> *)
Definition SurfaceRef := Z.           (* sptr<Surface> *)
Definition ProducerRef := Z.          (* sptr<IBufferProducer> *)
Definition CallbackRef := Z.          (* a non-empty std::function *)

(** A [SurfaceBuffer] as far as the relay looks at it: its virtual address
    (the registry key), its extent, and what [GetMetadata key, out value]
    answers (result code and the bytes left in the out vector). *)
Record SurfaceBuffer : Type := mkSurfaceBuffer {
  GetVirAddr : Z;
  GetWidth : Z;
  GetHeight : Z;
  GetMetadata : Z -> GSError * list byte;
}.

Inductive BufferUsage : Type :=
| BUFFER_USAGE_CPU_READ
| BUFFER_USAGE_MEM_DMA.

Record Rect : Type := mkRect { rect_x : Z; rect_y : Z; rect_w : Z; rect_h : Z }.
Record BufferFlushConfig : Type :=
  mkFlushConfig { damage : Rect; flush_timestamp : Z }.

(** ** The object's fields *)

Record SurfaceBufferRelay : Type := mkRelay {
  cameraConsumerSurface_ : option ConsumerSurfaceRef;
  cameraProducerSurface_ : option SurfaceRef;
  encoderSurface_ : option SurfaceRef;
  bufferMap_ : gmap Z SurfaceBuffer;
  imuCallback_ : option CallbackRef;
  frameIndex_ : Z;                      (* std::atomic<uint32_t> *)
  isRunning_ : bool;
}.

(** The constructor: [frameIndex_(0), isRunning_(false)], everything else
    default-constructed. *)
Definition constructed : SurfaceBufferRelay :=
  {| cameraConsumerSurface_ := None;
     cameraProducerSurface_ := None;
     encoderSurface_ := None;
     bufferMap_ := ∅;
     imuCallback_ := None;
     frameIndex_ := 0;
     isRunning_ := false |}.

Definition uint32_modulus : Z := 2 ^ 32.

(** ** Actions *)

(** Calls made through [cameraConsumerSurface_]. *)
Inductive UpstreamCall : Type :=
| SetDefaultWidthAndHeight (width height : Z)
| SetDefaultFormat (format : Z)
| SetDefaultUsage (usage : list BufferUsage)
| RegisterConsumerListener
| GetProducer
| AcquireBuffer
| ReleaseBuffer (buffer : SurfaceBuffer) (fence : Z)
| UnregisterConsumerListener.

(** Calls made through [encoderSurface_]. *)
Inductive DownstreamCall : Type :=
| RegisterReleaseListener
| AttachAndFlushBuffer (buffer : SurfaceBuffer) (fence : Z) (config : BufferFlushConfig)
| RequestAndDetachBuffer (buffer : SurfaceBuffer) (fence : Z).

(** Assignments to the object's own fields. *)
Inductive Store : Type :=
| St_cameraConsumerSurface (v : option ConsumerSurfaceRef)
| St_cameraProducerSurface (v : option SurfaceRef)
| St_encoderSurface (v : option SurfaceRef)
| St_imuCallback (v : option CallbackRef)
| St_isRunning (b : bool)
| St_frameIndex_incr
| St_bufferMap_insert (key : Z) (buffer : SurfaceBuffer)
| St_bufferMap_erase (key : Z)
| St_bufferMap_clear.

Inductive Event : Type :=
| Upstream (c : ConsumerSurfaceRef) (call : UpstreamCall)
| Downstream (e : SurfaceRef) (call : DownstreamCall)
| IConsumerSurface_Create
| Surface_CreateSurfaceAsProducer (p : ProducerRef)
| CloseFd (fd : Z)
| InvokeImuCallback (cb : CallbackRef) (frameIndex : Z) (imuData : list byte)
| Lock_bufferMapMutex
| Unlock_bufferMapMutex
| Write (w : Store).

Definition apply_store (w : Store) (s : SurfaceBufferRelay) : SurfaceBufferRelay :=
  match w with
  | St_cameraConsumerSurface v =>
      mkRelay v (cameraProducerSurface_ s) (encoderSurface_ s) (bufferMap_ s)
              (imuCallback_ s) (frameIndex_ s) (isRunning_ s)
  | St_cameraProducerSurface v =>
      mkRelay (cameraConsumerSurface_ s) v (encoderSurface_ s) (bufferMap_ s)
              (imuCallback_ s) (frameIndex_ s) (isRunning_ s)
  | St_encoderSurface v =>
      mkRelay (cameraConsumerSurface_ s) (cameraProducerSurface_ s) v (bufferMap_ s)
              (imuCallback_ s) (frameIndex_ s) (isRunning_ s)
  | St_imuCallback v =>
      mkRelay (cameraConsumerSurface_ s) (cameraProducerSurface_ s) (encoderSurface_ s)
              (bufferMap_ s) v (frameIndex_ s) (isRunning_ s)
  | St_isRunning b =>
      mkRelay (cameraConsumerSurface_ s) (cameraProducerSurface_ s) (encoderSurface_ s)
              (bufferMap_ s) (imuCallback_ s) (frameIndex_ s) b
  | St_frameIndex_incr =>
      mkRelay (cameraConsumerSurface_ s) (cameraProducerSurface_ s) (encoderSurface_ s)
              (bufferMap_ s) (imuCallback_ s)
              ((frameIndex_ s + 1) mod uint32_modulus) (isRunning_ s)
  | St_bufferMap_insert k b =>
      mkRelay (cameraConsumerSurface_ s) (cameraProducerSurface_ s) (encoderSurface_ s)
              (<[k := b]> (bufferMap_ s)) (imuCallback_ s) (frameIndex_ s) (isRunning_ s)
  | St_bufferMap_erase k =>
      mkRelay (cameraConsumerSurface_ s) (cameraProducerSurface_ s) (encoderSurface_ s)
              (delete k (bufferMap_ s)) (imuCallback_ s) (frameIndex_ s) (isRunning_ s)
  | St_bufferMap_clear =>
      mkRelay (cameraConsumerSurface_ s) (cameraProducerSurface_ s) (encoderSurface_ s)
              ∅ (imuCallback_ s) (frameIndex_ s) (isRunning_ s)
  end.

(** ** The monad *)

Inductive Outcome (A : Type) : Type :=
| Normal (a : A) (s : SurfaceBufferRelay) (log : list Event)
| NullDeref (log : list Event).
Arguments Normal {A} a s log.
Arguments NullDeref {A} log.

Definition M (A : Type) : Type := SurfaceBufferRelay -> Outcome A.

#[global] Instance M_ret : MRet M := fun A a s => Normal a s [].

#[global] Instance M_bind : MBind M := fun A B f m s =>
  match m s with
  | Normal a s1 l1 =>
      match f a s1 with
      | Normal b s2 l2 => Normal b s2 (l1 ++ l2)
      | NullDeref l2 => NullDeref (l1 ++ l2)
      end
  | NullDeref l1 => NullDeref l1
  end.

Definition load {A : Type} (field : SurfaceBufferRelay -> A) : M A :=
  fun s => Normal (field s) s [].

Definition store (w : Store) : M unit :=
  fun s => Normal tt (apply_store w s) [Write w].

Definition emit (e : Event) : M unit :=
  fun s => Normal tt s [e].

(** [{ std::lock_guard<std::mutex> lock(bufferMapMutex_); body }]. *)
Definition lock_guard {A : Type} (body : M A) : M A :=
  emit Lock_bufferMapMutex;;
  r ← body;
  emit Unlock_bufferMapMutex;;
  mret r.

(** [p->...] on an [sptr] local: a fault when it is null. *)
Definition deref {A : Type} (p : option A) : M A :=
  fun s => match p with
           | Some a => Normal a s []
           | None => NullDeref []
           end.

(** [p == nullptr] on an [sptr]. *)
Definition is_null {A : Type} (p : option A) : bool :=
  match p with
  | Some _ => false
  | None => true
  end.

(** [cameraConsumerSurface_->call]. *)
Definition upstream (call : UpstreamCall) : M unit :=
  c ← load cameraConsumerSurface_; c ← deref c; emit (Upstream c call).

(** [encoderSurface_->call]. *)
Definition downstream (call : DownstreamCall) : M unit :=
  e ← load encoderSurface_; e ← deref e; emit (Downstream e call).

(** ** The collaborators' answers during one entry into the engine *)

(** Modelled from the spec: surface.h, surface_buffer.h and
    ibuffer_consumer_listener.h are not among the sources.  Each queue call
    is taken with the arguments the relay passes and answers with a result
    code (and, for the acquire, the out parameters buffer, fence and
    timestamp), as in the spec's "request the next buffer from the upstream
    endpoint, obtaining the buffer handle, an associated fence, and
    timestamp/damage metadata". *)
Record World : Type := mkWorld {
  w_Create : option ConsumerSurfaceRef;
  w_RegisterConsumerListener : GSError;
  w_GetProducer : option ProducerRef;
  w_CreateSurfaceAsProducer : ProducerRef -> option SurfaceRef;
  w_RegisterReleaseListener : GSError;
  w_AcquireBuffer : GSError * option SurfaceBuffer * Z * Z;
  w_AttachAndFlushBuffer : SurfaceBuffer -> Z -> BufferFlushConfig -> GSError;
  w_RequestAndDetachBuffer : SurfaceBuffer -> Z -> GSError;
  w_ReleaseBuffer : SurfaceBuffer -> Z -> GSError;
}.

(** ** Member functions *)

Definition Init (w : World) (width height format : Z) : M DCameraErrno :=
  emit IConsumerSurface_Create;;
  store (St_cameraConsumerSurface (w_Create w));;
  c ← load cameraConsumerSurface_;
  if is_null c then mret DCAMERA_INIT_ERR
  else
    upstream (SetDefaultWidthAndHeight width height);;
    upstream (SetDefaultFormat format);;
    upstream (SetDefaultUsage [BUFFER_USAGE_CPU_READ; BUFFER_USAGE_MEM_DMA]);;
    upstream RegisterConsumerListener;;
    let ret := w_RegisterConsumerListener w in
    if decide (ret ≠ GSERROR_OK) then mret DCAMERA_BAD_OPERATE
    else
      upstream GetProducer;;
      let producer := w_GetProducer w in
      if is_null producer then mret DCAMERA_INIT_ERR
      else
        p ← deref producer;
        emit (Surface_CreateSurfaceAsProducer p);;
        store (St_cameraProducerSurface (w_CreateSurfaceAsProducer w p));;
        ps ← load cameraProducerSurface_;
        if is_null ps then mret DCAMERA_INIT_ERR
        else
          store (St_isRunning true);;
          mret DCAMERA_OK.

Definition GetCameraSurface : M (option SurfaceRef) :=
  load cameraProducerSurface_.

Definition SetEncoderSurface (w : World) (encoderSurface : option SurfaceRef)
  : M DCameraErrno :=
  if is_null encoderSurface then mret DCAMERA_BAD_VALUE
  else
    store (St_encoderSurface encoderSurface);;
    downstream RegisterReleaseListener;;
    let ret := w_RegisterReleaseListener w in
    if decide (ret ≠ GSERROR_OK) then mret DCAMERA_BAD_OPERATE
    else mret DCAMERA_OK.

Definition SetImuDataCallback (callback : option CallbackRef) : M unit :=
  store (St_imuCallback callback).

(** [ExtractImuData(buffer, imuData)]: the boolean result and the contents of
    the out vector, which is empty at the only call site. *)
Definition ExtractImuData (buffer : option SurfaceBuffer) : bool * list byte :=
  match buffer with
  | None => (false, [])
  | Some b =>
      let '(ret, imuData) := GetMetadata b ATTRKEY_ROI_METADATA in
      if decide (ret ≠ GSERROR_OK) then (false, imuData)
      else if decide (length imuData ≠ IMU_DATA_SIZE) then (false, imuData)
      else (true, imuData)
  end.

(** [{{0, 0, buffer->GetWidth(), buffer->GetHeight()}, 0}]: the buffer's full
    extent, timestamp 0. *)
Definition full_extent (b : SurfaceBuffer) : BufferFlushConfig :=
  mkFlushConfig (mkRect 0 0 (GetWidth b) (GetHeight b)) 0.

Definition AttachBufferToEncoder (w : World) (buffer : option SurfaceBuffer)
  : M DCameraErrno :=
  e ← load encoderSurface_;
  if is_null e || is_null buffer then mret DCAMERA_BAD_VALUE
  else
    b ← deref buffer;
    let flushConfig := full_extent b in
    downstream (AttachAndFlushBuffer b (-1) flushConfig);;
    let ret := w_AttachAndFlushBuffer w b (-1) flushConfig in
    if decide (ret ≠ GSERROR_OK) then mret DCAMERA_BAD_OPERATE
    else mret DCAMERA_OK.

Definition ReturnBufferToCamera (w : World) (buffer : option SurfaceBuffer) (fence : Z)
  : M DCameraErrno :=
  c ← load cameraConsumerSurface_;
  if is_null c || is_null buffer then mret DCAMERA_BAD_VALUE
  else
    b ← deref buffer;
    upstream (ReleaseBuffer b fence);;
    let ret := w_ReleaseBuffer w b fence in
    if decide (ret ≠ GSERROR_OK) then mret DCAMERA_BAD_OPERATE
    else mret DCAMERA_OK.

Definition RelayBufferFromCamera (w : World) : M unit :=
  c ← load cameraConsumerSurface_;
  e ← load encoderSurface_;
  if is_null c || is_null e then mret tt
  else
    (* 1. acquire *)
    upstream AcquireBuffer;;
    let '(ret, buffer, fence, timestamp) := w_AcquireBuffer w in
    if bool_decide (ret ≠ GSERROR_OK) || is_null buffer then mret tt
    else
      (if bool_decide (0 <= fence) then emit (CloseFd fence) else mret tt);;
      (* 2. metadata *)
      let '(extracted, imuData) := ExtractImuData buffer in
      (if extracted then
         cb ← load imuCallback_;
         if is_null cb then mret tt
         else
           f ← deref cb;
           i ← load frameIndex_;
           emit (InvokeImuCallback f i imuData)
       else mret tt);;
      (* 3. forward *)
      r ← AttachBufferToEncoder w buffer;
      if decide (r ≠ DCAMERA_OK) then
        b ← deref buffer;
        upstream (ReleaseBuffer b (-1))
      else
        (* 4. register *)
        b ← deref buffer;
        lock_guard (store (St_bufferMap_insert (GetVirAddr b) b));;
        store St_frameIndex_incr.

Definition OnBufferAvailable (w : World) : M unit :=
  r ← load isRunning_;
  if negb r then mret tt
  else RelayBufferFromCamera w.

Definition OnEncoderReleaseBuffer (w : World) (buffer : option SurfaceBuffer) (fence : Z)
  : M unit :=
  if is_null buffer then mret tt
  else
    b ← deref buffer;
    downstream (RequestAndDetachBuffer b fence);;
    ReturnBufferToCamera w buffer fence;;
    lock_guard (store (St_bufferMap_erase (GetVirAddr b))).

Definition Release : M unit :=
  store (St_isRunning false);;
  c ← load cameraConsumerSurface_;
  (if is_null c then mret tt
   else
     upstream UnregisterConsumerListener;;
     store (St_cameraConsumerSurface None));;
  store (St_cameraProducerSurface None);;
  store (St_encoderSurface None);;
  lock_guard (store St_bufferMap_clear).

(** ** Reading a log *)

(** The metadata callback invocations of a log: frame index and bytes. *)
Definition imu_calls (log : list Event) : list (Z * list byte) :=
  omap (fun ev => match ev with
                  | InvokeImuCallback _ i d => Some (i, d)
                  | _ => None
                  end) log.

(** The calls made on the upstream (camera) endpoint. *)
Definition upstream_calls (log : list Event) : list UpstreamCall :=
  omap (fun ev => match ev with
                  | Upstream _ call => Some call
                  | _ => None
                  end) log.

(** The calls made on the downstream (encoder) endpoint. *)
Definition downstream_calls (log : list Event) : list DownstreamCall :=
  omap (fun ev => match ev with
                  | Downstream _ call => Some call
                  | _ => None
                  end) log.

(** The assignments to the object's fields. *)
Definition writes (log : list Event) : list Store :=
  omap (fun ev => match ev with
                  | Write w => Some w
                  | _ => None
                  end) log.

(** Writes that do not touch the running flag. *)
Definition leaves_running_flag (st : Store) : Prop :=
  forall v, st ≠ St_isRunning v.

(** All sub-steps of [Init] succeed in the world [w]. *)
Definition init_substeps_succeed (w : World) : Prop :=
  is_Some (w_Create w)
  /\ w_RegisterConsumerListener w = GSERROR_OK
  /\ exists p, w_GetProducer w = Some p /\ is_Some (w_CreateSurfaceAsProducer w p).

(** The log of an outcome, whether it ended normally or not. *)
Definition log_of {A : Type} (o : Outcome A) : list Event :=
  match o with
  | Normal _ _ l => l
  | NullDeref l => l
  end.

(** ** Concrete inputs used in examples *)

Definition imu768 : list byte := repeat x2a 768.

Definition buffer_plain : SurfaceBuffer :=
  mkSurfaceBuffer 4096 1920 1080 (fun _ => (GSERROR_FAIL 40001000, [])).

Definition buffer_imu : SurfaceBuffer :=
  mkSurfaceBuffer 8192 1920 1080
    (fun key => if decide (key = ATTRKEY_ROI_METADATA) then (GSERROR_OK, imu768)
                else (GSERROR_FAIL 40001000, [])).

Definition buffer_short_imu : SurfaceBuffer :=
  mkSurfaceBuffer 12288 1920 1080 (fun _ => (GSERROR_OK, [x2a; x2a])).

(** A world in which every call succeeds and the camera queue hands out [b]. *)
Definition world_ok (b : SurfaceBuffer) : World :=
  {| w_Create := Some 1;
     w_RegisterConsumerListener := GSERROR_OK;
     w_GetProducer := Some 2;
     w_CreateSurfaceAsProducer := fun _ => Some 3;
     w_RegisterReleaseListener := GSERROR_OK;
     w_AcquireBuffer := (GSERROR_OK, Some b, 5, 1000);
     w_AttachAndFlushBuffer := fun _ _ _ => GSERROR_OK;
     w_RequestAndDetachBuffer := fun _ _ => GSERROR_OK;
     w_ReleaseBuffer := fun _ _ => GSERROR_OK |}.

(** The same world, except that the encoder queue answers [r] to every
    attach-and-flush. *)
Definition with_attach (r : GSError) (w : World) : World :=
  {| w_Create := w_Create w;
     w_RegisterConsumerListener := w_RegisterConsumerListener w;
     w_GetProducer := w_GetProducer w;
     w_CreateSurfaceAsProducer := w_CreateSurfaceAsProducer w;
     w_RegisterReleaseListener := w_RegisterReleaseListener w;
     w_AcquireBuffer := w_AcquireBuffer w;
     w_AttachAndFlushBuffer := fun _ _ _ => r;
     w_RequestAndDetachBuffer := w_RequestAndDetachBuffer w;
     w_ReleaseBuffer := w_ReleaseBuffer w |}.

(** The same world, except for what the camera queue answers to the acquire. *)
Definition with_acquire (a : GSError * option SurfaceBuffer * Z * Z) (w : World) : World :=
  {| w_Create := w_Create w;
     w_RegisterConsumerListener := w_RegisterConsumerListener w;
     w_GetProducer := w_GetProducer w;
     w_CreateSurfaceAsProducer := w_CreateSurfaceAsProducer w;
     w_RegisterReleaseListener := w_RegisterReleaseListener w;
     w_AcquireBuffer := a;
     w_AttachAndFlushBuffer := w_AttachAndFlushBuffer w;
     w_RequestAndDetachBuffer := w_RequestAndDetachBuffer w;
     w_ReleaseBuffer := w_ReleaseBuffer w |}.

(** The same world, except that registering the consumer listener answers [r]. *)
Definition with_register (r : GSError) (w : World) : World :=
  {| w_Create := w_Create w;
     w_RegisterConsumerListener := r;
     w_GetProducer := w_GetProducer w;
     w_CreateSurfaceAsProducer := w_CreateSurfaceAsProducer w;
     w_RegisterReleaseListener := w_RegisterReleaseListener w;
     w_AcquireBuffer := w_AcquireBuffer w;
     w_AttachAndFlushBuffer := w_AttachAndFlushBuffer w;
     w_RequestAndDetachBuffer := w_RequestAndDetachBuffer w;
     w_ReleaseBuffer := w_ReleaseBuffer w |}.

(** A world in which the encoder queue refuses the attach-and-flush. *)
Definition world_attach_fails : World :=
  with_attach (GSERROR_FAIL 40601000) (world_ok buffer_imu).

(** A world in which the camera queue has nothing to hand out. *)
Definition world_no_buffer : World :=
  with_acquire (GSERROR_FAIL 40601000, None, -1, 0) (world_ok buffer_plain).

(** A world in which registering the consumer listener fails. *)
Definition world_register_fails : World :=
  with_register (GSERROR_FAIL 40001000) (world_ok buffer_plain).

(** What [Release] leaves of an engine: both endpoints and the producer
    surface dropped, the registry empty, not running; the callback and the
    frame index are not touched. *)
Definition released (s : SurfaceBufferRelay) : SurfaceBufferRelay :=
  {| cameraConsumerSurface_ := None;
     cameraProducerSurface_ := None;
     encoderSurface_ := None;
     bufferMap_ := ∅;
     imuCallback_ := imuCallback_ s;
     frameIndex_ := frameIndex_ s;
     isRunning_ := false |}.

(** An engine after a successful [Init], before [SetEncoderSurface]. *)
Definition initialized : SurfaceBufferRelay :=
  {| cameraConsumerSurface_ := Some 1;
     cameraProducerSurface_ := Some 3;
     encoderSurface_ := None;
     bufferMap_ := ∅;
     imuCallback_ := None;
     frameIndex_ := 0;
     isRunning_ := true |}.

(** An engine whose [Init] stopped at the listener registration. *)
Definition half_initialized : SurfaceBufferRelay :=
  {| cameraConsumerSurface_ := Some 1;
     cameraProducerSurface_ := None;
     encoderSurface_ := None;
     bufferMap_ := ∅;
     imuCallback_ := None;
     frameIndex_ := 0;
     isRunning_ := false |}.

(** An engine after [Init], [SetEncoderSurface] and [SetImuDataCallback]
    all succeeded, with nothing in flight. *)
Definition bound_idle : SurfaceBufferRelay :=
  {| cameraConsumerSurface_ := Some 1;
     cameraProducerSurface_ := Some 3;
     encoderSurface_ := Some 7;
     bufferMap_ := ∅;
     imuCallback_ := Some 9;
     frameIndex_ := 0;
     isRunning_ := true |}.

(** ** Sequences of calls on the engine *)

(** [~SurfaceBufferRelay()]: the destructor calls [Release]. *)
Definition Destructor : M unit := Release.

(** The entry points that the owner of the object, the queue runtime and the
    encoder call, each with the world it runs in; results are dropped. *)
Inductive Call : Type :=
| Call_Init (w : World) (width height format : Z)
| Call_GetCameraSurface
| Call_SetEncoderSurface (w : World) (encoderSurface : option SurfaceRef)
| Call_SetImuDataCallback (callback : option CallbackRef)
| Call_OnBufferAvailable (w : World)
| Call_OnEncoderReleaseBuffer (w : World) (buffer : option SurfaceBuffer) (fence : Z)
| Call_Release.

Definition perform (c : Call) : M unit :=
  match c with
  | Call_Init w width height format => Init w width height format;; mret tt
  | Call_GetCameraSurface => GetCameraSurface;; mret tt
  | Call_SetEncoderSurface w encoderSurface => SetEncoderSurface w encoderSurface;; mret tt
  | Call_SetImuDataCallback callback => SetImuDataCallback callback
  | Call_OnBufferAvailable w => OnBufferAvailable w
  | Call_OnEncoderReleaseBuffer w buffer fence => OnEncoderReleaseBuffer w buffer fence
  | Call_Release => Release
  end.

Fixpoint perform_all (cs : list Call) : M unit :=
  match cs with
  | [] => mret tt
  | c :: rest => perform c;; perform_all rest
  end.

(** Every registry entry is filed under its buffer's own virtual address. *)
Definition registry_keyed (s : SurfaceBufferRelay) : Prop :=
  forall k b, bufferMap_ s !! k = Some b -> GetVirAddr b = k.

(** The frame index is a value of uint32. *)
Definition frame_in_range (s : SurfaceBufferRelay) : Prop :=
  0 <= frameIndex_ s < uint32_modulus.

Definition touches_registry (ev : Event) : bool :=
  match ev with
  | Write (St_bufferMap_insert _ _) => true
  | Write (St_bufferMap_erase _) => true
  | Write St_bufferMap_clear => true
  | _ => false
  end.

(** Reading a log with the registry mutex [held] or not: the mutex is taken
    only when free and released only when held, the registry is written
    exactly while it is held, every other action (queue calls, the callback,
    other writes) happens while it is free, and it is free at the end. *)
Fixpoint well_locked_from (held : bool) (log : list Event) : bool :=
  match log with
  | [] => negb held
  | Lock_bufferMapMutex :: rest => negb held && well_locked_from true rest
  | Unlock_bufferMapMutex :: rest => held && well_locked_from false rest
  | ev :: rest => Bool.eqb held (touches_registry ev) && well_locked_from held rest
  end.

(** The addresses inserted into the registry, in order. *)
Definition registered (log : list Event) : list Z :=
  omap (fun ev => match ev with
                  | Write (St_bufferMap_insert k _) => Some k
                  | _ => None
                  end) log.

(** The file descriptors closed. *)
Definition closed_fds (log : list Event) : list Z :=
  omap (fun ev => match ev with
                  | CloseFd fd => Some fd
                  | _ => None
                  end) log.

(** An engine with one buffer in flight. *)
Definition one_in_flight : SurfaceBufferRelay :=
  {| cameraConsumerSurface_ := Some 1;
     cameraProducerSurface_ := Some 3;
     encoderSurface_ := Some 7;
     bufferMap_ := {[ 8192 := buffer_imu ]};
     imuCallback_ := Some 9;
     frameIndex_ := 1;
     isRunning_ := true |}.

(** A world in which the release-listener registration is refused. *)
Definition world_release_listener_fails : World :=
  {| w_Create := Some 1;
     w_RegisterConsumerListener := GSERROR_OK;
     w_GetProducer := Some 2;
     w_CreateSurfaceAsProducer := fun _ => Some 3;
     w_RegisterReleaseListener := GSERROR_FAIL 40001000;
     w_AcquireBuffer := (GSERROR_OK, Some buffer_imu, 5, 1000);
     w_AttachAndFlushBuffer := fun _ _ _ => GSERROR_OK;
     w_RequestAndDetachBuffer := fun _ _ => GSERROR_OK;
     w_ReleaseBuffer := fun _ _ => GSERROR_OK |}.

(** A world in which detaching from the encoder queue and releasing to the
    camera queue both fail. *)
Definition world_return_fails : World :=
  {| w_Create := Some 1;
     w_RegisterConsumerListener := GSERROR_OK;
     w_GetProducer := Some 2;
     w_CreateSurfaceAsProducer := fun _ => Some 3;
     w_RegisterReleaseListener := GSERROR_OK;
     w_AcquireBuffer := (GSERROR_OK, Some buffer_imu, 5, 1000);
     w_AttachAndFlushBuffer := fun _ _ _ => GSERROR_OK;
     w_RequestAndDetachBuffer := fun _ _ => GSERROR_FAIL 40601000;
     w_ReleaseBuffer := fun _ _ => GSERROR_FAIL 40601000 |}.

(** A whole life of an engine: set up, one frame forwarded and released by
    the encoder, torn down. *)
Definition session : list Call :=
  [Call_Init (world_ok buffer_imu) 1920 1080 12;
   Call_GetCameraSurface;
   Call_SetEncoderSurface (world_ok buffer_imu) (Some 7);
   Call_SetImuDataCallback (Some 9);
   Call_OnBufferAvailable (world_ok buffer_imu);
   Call_OnEncoderReleaseBuffer world_return_fails (Some buffer_imu) 11;
   Call_OnBufferAvailable world_no_buffer;
   Call_Release].

(** A world in which the consumer surface cannot be created. *)
Definition world_create_fails : World :=
  {| w_Create := None;
     w_RegisterConsumerListener := GSERROR_OK;
     w_GetProducer := Some 2;
     w_CreateSurfaceAsProducer := fun _ => Some 3;
     w_RegisterReleaseListener := GSERROR_OK;
     w_AcquireBuffer := (GSERROR_OK, Some buffer_imu, 5, 1000);
     w_AttachAndFlushBuffer := fun _ _ _ => GSERROR_OK;
     w_RequestAndDetachBuffer := fun _ _ => GSERROR_OK;
     w_ReleaseBuffer := fun _ _ => GSERROR_OK |}.

(** ** Proof support *)

Ltac relay_unfold :=
  cbv [Init GetCameraSurface SetEncoderSurface SetImuDataCallback
       AttachBufferToEncoder ReturnBufferToCamera RelayBufferFromCamera
       OnBufferAvailable OnEncoderReleaseBuffer Release
       upstream downstream load store emit deref is_null lock_guard
       mbind mret M_bind M_ret orb negb app].

Ltac relay_eval :=
  cbv [Init GetCameraSurface SetEncoderSurface SetImuDataCallback
       AttachBufferToEncoder ReturnBufferToCamera RelayBufferFromCamera
       OnBufferAvailable OnEncoderReleaseBuffer Release
       upstream downstream load store emit deref is_null lock_guard apply_store
       cameraConsumerSurface_ cameraProducerSurface_ encoderSurface_ bufferMap_
       imuCallback_ frameIndex_ isRunning_
       mbind mret M_bind M_ret orb negb app].

(** Name the fields of the engine and push the hypotheses on them through. *)
Ltac relay_fields s :=
  destruct s as [cons prod enc regs cbk idx run];
  cbn [cameraConsumerSurface_ cameraProducerSurface_ encoderSurface_ bufferMap_
       imuCallback_ frameIndex_ isRunning_] in *;
  simplify_eq.

(** ** Scenarios, evaluated *)

Example scenario_setup :
  (Init (world_ok buffer_imu) 1920 1080 12;;
   SetEncoderSurface (world_ok buffer_imu) (Some 7);;
   SetImuDataCallback (Some 9)) constructed
  = Normal tt bound_idle
      [IConsumerSurface_Create;
       Write (St_cameraConsumerSurface (Some 1));
       Upstream 1 (SetDefaultWidthAndHeight 1920 1080);
       Upstream 1 (SetDefaultFormat 12);
       Upstream 1 (SetDefaultUsage [BUFFER_USAGE_CPU_READ; BUFFER_USAGE_MEM_DMA]);
       Upstream 1 RegisterConsumerListener;
       Upstream 1 GetProducer;
       Surface_CreateSurfaceAsProducer 2;
       Write (St_cameraProducerSurface (Some 3));
       Write (St_isRunning true);
       Write (St_encoderSurface (Some 7));
       Downstream 7 RegisterReleaseListener;
       Write (St_imuCallback (Some 9))].
Proof. reflexivity. Qed.

Lemma OnBufferAvailable_running (w : World) (s : SurfaceBufferRelay) :
  isRunning_ s = true -> OnBufferAvailable w s = RelayBufferFromCamera w s.
Proof.
  intros Hrun. unfold OnBufferAvailable at 1.
  cbv [load mbind M_bind]. rewrite Hrun. cbn.
  destruct (RelayBufferFromCamera w s); reflexivity.
Qed.

Lemma OnBufferAvailable_stopped (w : World) (s : SurfaceBufferRelay) :
  isRunning_ s = false -> OnBufferAvailable w s = Normal tt s [].
Proof.
  intros Hrun. cbv [OnBufferAvailable load mbind M_bind]. rewrite Hrun. reflexivity.
Qed.

Lemma RelayBufferFromCamera_not_ready (w : World) (s : SurfaceBufferRelay) :
  cameraConsumerSurface_ s = None \/ encoderSurface_ s = None ->
  RelayBufferFromCamera w s = Normal tt s [].
Proof.
  intros H. cbv [RelayBufferFromCamera load mbind M_bind].
  destruct H as [H | H]; rewrite H; cbn;
    destruct (cameraConsumerSurface_ s); reflexivity.
Qed.

(** ** The acquire step fails *)

Lemma RelayBufferFromCamera_no_buffer
  (w : World) (s : SurfaceBufferRelay) (c : ConsumerSurfaceRef) (e : SurfaceRef) :
  cameraConsumerSurface_ s = Some c ->
  encoderSurface_ s = Some e ->
  (w_AcquireBuffer w).1.1.1 ≠ GSERROR_OK \/ (w_AcquireBuffer w).1.1.2 = None ->
  RelayBufferFromCamera w s = Normal tt s [Upstream c AcquireBuffer].
Proof.
  intros Hc He Hacq. unfold RelayBufferFromCamera.
  destruct (w_AcquireBuffer w) as [[[ret buffer] fence] timestamp].
  cbn [fst snd] in Hacq. relay_fields s. relay_unfold.
  destruct Hacq as [Hret | Hbuf].
  - rewrite bool_decide_eq_true_2 by assumption. reflexivity.
  - subst buffer. destruct (bool_decide (ret ≠ GSERROR_OK)); reflexivity.
Qed.

(** C8.  A forward cycle whose acquire fails or yields no buffer ends at once:
    the only action is the acquire call itself, every field of the engine
    (registry and frame index included) is as before, the metadata callback is
    not invoked, nothing is written, and the function, which has no result,
    returns normally. *)
Theorem C8_acquire_failure_aborts_silently
  (w : World) (s : SurfaceBufferRelay) (c : ConsumerSurfaceRef) (e : SurfaceRef) :
  cameraConsumerSurface_ s = Some c ->
  encoderSurface_ s = Some e ->
  (w_AcquireBuffer w).1.1.1 ≠ GSERROR_OK \/ (w_AcquireBuffer w).1.1.2 = None ->
  RelayBufferFromCamera w s = Normal tt s [Upstream c AcquireBuffer]
  /\ imu_calls (log_of (RelayBufferFromCamera w s)) = []
  /\ writes (log_of (RelayBufferFromCamera w s)) = [].
Proof.
  intros Hc He Hacq.
  pose proof (RelayBufferFromCamera_no_buffer w s c e Hc He Hacq) as Hrun.
  rewrite Hrun. split_and!; reflexivity.
Qed.

(** ** The metadata extractor *)

Lemma ExtractImuData_bytes (b : SurfaceBuffer) :
  (ExtractImuData (Some b)).2 = (GetMetadata b ATTRKEY_ROI_METADATA).2.
Proof.
  unfold ExtractImuData.
  destruct (GetMetadata b ATTRKEY_ROI_METADATA) as [ret imuData]; cbn.
  repeat case_decide; reflexivity.
Qed.

Lemma ExtractImuData_true (b : SurfaceBuffer) :
  (ExtractImuData (Some b)).1 = true <->
  (GetMetadata b ATTRKEY_ROI_METADATA).1 = GSERROR_OK
  /\ length (GetMetadata b ATTRKEY_ROI_METADATA).2 = IMU_DATA_SIZE.
Proof.
  unfold ExtractImuData.
  destruct (GetMetadata b ATTRKEY_ROI_METADATA) as [ret imuData]; cbn.
  destruct (decide (ret ≠ GSERROR_OK)) as [Hret | Hret];
    [ | destruct (decide (length imuData ≠ IMU_DATA_SIZE)) as [Hlen | Hlen] ];
    cbn; split; intros Hx; try discriminate; try tauto.
  split; [ destruct (decide (ret = GSERROR_OK)); tauto
         | destruct (decide (length imuData = IMU_DATA_SIZE)); tauto ].
Qed.

Lemma ExtractImuData_null : ExtractImuData None = (false, []).
Proof. reflexivity. Qed.

(** ** One forward cycle with an acquired buffer *)

(** What a cycle does up to and including the attach-and-flush call. *)
Lemma RelayBufferFromCamera_acquired
  (w : World) (s : SurfaceBufferRelay) (c : ConsumerSurfaceRef) (e : SurfaceRef)
  (b : SurfaceBuffer) (fence timestamp : Z) :
  cameraConsumerSurface_ s = Some c ->
  encoderSurface_ s = Some e ->
  w_AcquireBuffer w = (GSERROR_OK, Some b, fence, timestamp) ->
  let cfg := full_extent b in
  let upto_attach :=
    [Upstream c AcquireBuffer]
    ++ (if bool_decide (0 <= fence) then [CloseFd fence] else [])
    ++ (if (ExtractImuData (Some b)).1
        then match imuCallback_ s with
             | Some f => [InvokeImuCallback f (frameIndex_ s) (ExtractImuData (Some b)).2]
             | None => []
             end
        else [])
    ++ [Downstream e (AttachAndFlushBuffer b (-1) cfg)] in
  RelayBufferFromCamera w s =
    if decide (w_AttachAndFlushBuffer w b (-1) cfg ≠ GSERROR_OK)
    then Normal tt s (upto_attach ++ [Upstream c (ReleaseBuffer b (-1))])
    else Normal tt
           (apply_store St_frameIndex_incr
              (apply_store (St_bufferMap_insert (GetVirAddr b) b) s))
           (upto_attach ++ [Lock_bufferMapMutex;
                            Write (St_bufferMap_insert (GetVirAddr b) b);
                            Unlock_bufferMapMutex;
                            Write St_frameIndex_incr]).
Proof.
  intros Hc He Hacq cfg upto_attach. subst upto_attach cfg.
  unfold RelayBufferFromCamera. rewrite Hacq.
  destruct (ExtractImuData (Some b)) as [extracted imuData]; cbn [fst snd].
  relay_fields s. relay_unfold.
  rewrite bool_decide_eq_false_2 by (intros H; apply H; reflexivity).
  destruct (bool_decide (0 <= fence)), extracted, cbk;
    destruct (decide (w_AttachAndFlushBuffer w b (-1) (full_extent b) ≠ GSERROR_OK));
    cbn; reflexivity.
Qed.

(** ** The forward step fails *)

(** C5.  When the encoder queue refuses the attach-and-flush of an acquired
    buffer, the cycle ends by releasing that buffer to the camera queue with
    fence -1; the camera queue sees exactly the acquire and that release,
    no field of the engine is written, so the registry and the frame index
    after the cycle are those before it. *)
Theorem C5_forward_failure_returns_buffer
  (w : World) (s : SurfaceBufferRelay) (c : ConsumerSurfaceRef) (e : SurfaceRef)
  (b : SurfaceBuffer) (fence timestamp : Z) :
  cameraConsumerSurface_ s = Some c ->
  encoderSurface_ s = Some e ->
  w_AcquireBuffer w = (GSERROR_OK, Some b, fence, timestamp) ->
  w_AttachAndFlushBuffer w b (-1) (full_extent b) ≠ GSERROR_OK ->
  exists s' pre,
    RelayBufferFromCamera w s = Normal tt s' (pre ++ [Upstream c (ReleaseBuffer b (-1))])
    /\ upstream_calls pre = [AcquireBuffer]
    /\ writes pre = []
    /\ s' = s
    /\ bufferMap_ s' = bufferMap_ s
    /\ frameIndex_ s' = frameIndex_ s.
Proof.
  intros Hc He Hacq Hfail.
  rewrite (RelayBufferFromCamera_acquired w s c e b fence timestamp Hc He Hacq).
  rewrite decide_True by assumption.
  eexists s, _. split; [reflexivity |].
  split_and!; try reflexivity.
  - destruct (bool_decide (0 <= fence)), (ExtractImuData (Some b)).1, (imuCallback_ s);
      reflexivity.
  - destruct (bool_decide (0 <= fence)), (ExtractImuData (Some b)).1, (imuCallback_ s);
      reflexivity.
Qed.

(** ** The forward step succeeds *)

(** C7.  When the encoder queue accepts the attach-and-flush of an acquired
    buffer, the cycle ends with, in this order, the insertion of (virtual
    address, buffer) into the registry, under the registry's mutex, and the
    increment of the frame index (modulo 2^32, the counter being a uint32);
    nothing is written before them, and a metadata callback made in the cycle
    received the frame index the cycle started with.  When a callback is set
    and the buffer carries 768 bytes of metadata, the callback is invoked in
    that cycle, exactly once, with that frame index and those bytes.
    Starting from frame index 0 the callback therefore sees 0 and the cycle
    leaves 1. *)
Theorem C7_forward_success_registers_then_counts
  (w : World) (s : SurfaceBufferRelay) (c : ConsumerSurfaceRef) (e : SurfaceRef)
  (b : SurfaceBuffer) (fence timestamp : Z) :
  cameraConsumerSurface_ s = Some c ->
  encoderSurface_ s = Some e ->
  w_AcquireBuffer w = (GSERROR_OK, Some b, fence, timestamp) ->
  w_AttachAndFlushBuffer w b (-1) (full_extent b) = GSERROR_OK ->
  exists s' pre,
    RelayBufferFromCamera w s =
      Normal tt s' (pre ++ [Lock_bufferMapMutex;
                            Write (St_bufferMap_insert (GetVirAddr b) b);
                            Unlock_bufferMapMutex;
                            Write St_frameIndex_incr])
    /\ writes pre = []
    /\ bufferMap_ s' = <[GetVirAddr b := b]> (bufferMap_ s)
    /\ frameIndex_ s' = (frameIndex_ s + 1) mod 2 ^ 32
    /\ (0 <= frameIndex_ s < 2 ^ 32 - 1 -> frameIndex_ s' = frameIndex_ s + 1)
    /\ (forall i d, In (i, d) (imu_calls pre) -> i = frameIndex_ s)
    /\ (frameIndex_ s = 0 ->
        frameIndex_ s' = 1 /\ forall i d, In (i, d) (imu_calls pre) -> i = 0)
    /\ (forall f,
          imuCallback_ s = Some f ->
          (GetMetadata b ATTRKEY_ROI_METADATA).1 = GSERROR_OK ->
          length (GetMetadata b ATTRKEY_ROI_METADATA).2 = 768%nat ->
          imu_calls pre = [(frameIndex_ s, (GetMetadata b ATTRKEY_ROI_METADATA).2)]
          /\ In (InvokeImuCallback f (frameIndex_ s)
                   (GetMetadata b ATTRKEY_ROI_METADATA).2) pre
          /\ (frameIndex_ s = 0 ->
              In (InvokeImuCallback f 0 (GetMetadata b ATTRKEY_ROI_METADATA).2) pre
              /\ frameIndex_ s' = 1)).
Proof.
  intros Hc He Hacq Hok.
  rewrite (RelayBufferFromCamera_acquired w s c e b fence timestamp Hc He Hacq).
  rewrite decide_False by (intros H; apply H, Hok).
  eexists _, _. split; [reflexivity |].
  assert (Hcalls : forall i d,
             In (i, d)
               (imu_calls
                  ([Upstream c AcquireBuffer]
                   ++ (if bool_decide (0 <= fence) then [CloseFd fence] else [])
                   ++ (if (ExtractImuData (Some b)).1
                       then match imuCallback_ s with
                            | Some f =>
                                [InvokeImuCallback f (frameIndex_ s)
                                   (ExtractImuData (Some b)).2]
                            | None => []
                            end
                       else [])
                   ++ [Downstream e (AttachAndFlushBuffer b (-1) (full_extent b))])) ->
             i = frameIndex_ s).
  { intros i d.
    destruct (bool_decide (0 <= fence)), (ExtractImuData (Some b)).1, (imuCallback_ s);
      cbn; intros Hin; try contradiction;
      destruct Hin as [Heq | []]; congruence. }
  assert (Hidx : frameIndex_
                   (apply_store St_frameIndex_incr
                      (apply_store (St_bufferMap_insert (GetVirAddr b) b) s))
                 = (frameIndex_ s + 1) mod 2 ^ 32) by reflexivity.
  split_and!.
  - destruct (bool_decide (0 <= fence)), (ExtractImuData (Some b)).1, (imuCallback_ s);
      reflexivity.
  - reflexivity.
  - exact Hidx.
  - intros Hrange. rewrite Hidx. apply Z.mod_small. lia.
  - exact Hcalls.
  - intros Hzero. split.
    + rewrite Hidx, Hzero. reflexivity.
    + intros i d Hin. rewrite (Hcalls i d Hin). assumption.
  - intros f Hcb Hpresent Hlen.
    assert (Hex : (ExtractImuData (Some b)).1 = true)
      by (apply ExtractImuData_true; split; assumption).
    rewrite Hex, Hcb, ExtractImuData_bytes.
    split_and!.
    + destruct (bool_decide (0 <= fence)); reflexivity.
    + destruct (bool_decide (0 <= fence)); cbn; tauto.
    + intros Hzero. rewrite Hidx, Hzero. split; [ | reflexivity ].
      destruct (bool_decide (0 <= fence)); cbn; tauto.
Qed.

(** ** Metadata gating *)

(** C6.  With a callback set, a cycle that acquired a buffer invokes the
    callback if and only if [GetMetadata] for the metadata key succeeds and
    leaves exactly 768 bytes.  When it does, there is one invocation, with the
    frame index the cycle started with and those bytes, made before any
    field of the engine is written.  Otherwise there is none.  Either way
    the cycle goes on to the attach-and-flush of the buffer. *)
Theorem C6_metadata_gating
  (w : World) (s : SurfaceBufferRelay) (c : ConsumerSurfaceRef) (e : SurfaceRef)
  (f : CallbackRef) (b : SurfaceBuffer) (fence timestamp : Z) :
  cameraConsumerSurface_ s = Some c ->
  encoderSurface_ s = Some e ->
  imuCallback_ s = Some f ->
  w_AcquireBuffer w = (GSERROR_OK, Some b, fence, timestamp) ->
  let present := (GetMetadata b ATTRKEY_ROI_METADATA).1 = GSERROR_OK in
  let blob := (GetMetadata b ATTRKEY_ROI_METADATA).2 in
  exists s' log,
    RelayBufferFromCamera w s = Normal tt s' log
    /\ (imu_calls log ≠ [] <-> present /\ length blob = 768%nat)
    /\ (present /\ length blob = 768%nat ->
        exists pre post,
          log = pre ++ InvokeImuCallback f (frameIndex_ s) blob :: post
          /\ writes pre = [] /\ imu_calls pre = [] /\ imu_calls post = [])
    /\ (~ (present /\ length blob = 768%nat) -> imu_calls log = [])
    /\ In (Downstream e (AttachAndFlushBuffer b (-1) (full_extent b))) log.
Proof.
  intros Hc He Hcb Hacq present blob. subst present blob.
  rewrite (RelayBufferFromCamera_acquired w s c e b fence timestamp Hc He Hacq).
  rewrite Hcb.
  pose proof (ExtractImuData_true b) as Hgate.
  rewrite <- (ExtractImuData_bytes b).
  change IMU_DATA_SIZE with 768%nat in Hgate.
  rewrite <- (ExtractImuData_bytes b) in Hgate.
  destruct (ExtractImuData (Some b)) as [extracted imuData]; cbn [fst snd] in *.
  destruct (decide (w_AttachAndFlushBuffer w b (-1) (full_extent b) ≠ GSERROR_OK));
    eexists _, _; (split; [reflexivity |]).
  all: destruct extracted; destruct (bool_decide (0 <= fence)); cbn.
  all: split_and!.
  all: try (split; intros Hx;
            first [ apply Hgate; reflexivity
                  | exfalso; apply Hx; reflexivity
                  | discriminate
                  | apply Hgate in Hx; discriminate ]).
  all: try (intros Hx; exfalso; apply Hx, Hgate; reflexivity).
  all: try (intros Hx; apply Hgate in Hx; discriminate).
  all: try (intros _; reflexivity).
  all: try tauto.
  all: intros _;
       first
         [ solve [ exists [Upstream c AcquireBuffer; CloseFd fence];
                   eexists; split_and!; reflexivity ]
         | solve [ exists [Upstream c AcquireBuffer];
                   eexists; split_and!; reflexivity ] ].
Qed.

(** ** The metadata callback and the outcome of the forward step *)

(** Where the callback sits in a cycle: at most one invocation, immediately
    followed by the attach-and-flush call, and the same under any answer to
    the attach-and-flush. *)
Lemma RelayBufferFromCamera_callback_order (w : World) (s : SurfaceBufferRelay) :
  exists s' log,
    RelayBufferFromCamera w s = Normal tt s' log
    /\ (length (imu_calls log) <= 1)%nat
    /\ (forall f i d,
          In (InvokeImuCallback f i d) log ->
          exists pre post e b,
            log = pre ++ InvokeImuCallback f i d
                      :: Downstream e (AttachAndFlushBuffer b (-1) (full_extent b))
                      :: post
            /\ downstream_calls pre = [])
    /\ (forall r,
          imu_calls (log_of (RelayBufferFromCamera (with_attach r w) s))
          = imu_calls log).
Proof.
  destruct (cameraConsumerSurface_ s) as [c |] eqn:Hc;
    [ destruct (encoderSurface_ s) as [e |] eqn:He | ].
  2, 3: exists s, []; split_and!;
        [ apply RelayBufferFromCamera_not_ready; auto
        | cbn; lia
        | intros f i d []
        | intros r; rewrite RelayBufferFromCamera_not_ready by auto; reflexivity ].
  destruct (w_AcquireBuffer w) as [[[ret buffer] fence] timestamp] eqn:Hacq.
  assert (Hsame : forall r, w_AcquireBuffer (with_attach r w)
                            = (ret, buffer, fence, timestamp)) by (intros r; exact Hacq).
  destruct ret as [| code]; [ destruct buffer as [b |] | ].
  2, 3: exists s, [Upstream c AcquireBuffer]; split_and!;
        [ apply (RelayBufferFromCamera_no_buffer w s c e Hc He);
          rewrite Hacq; cbn; auto
        | cbn; lia
        | intros f i d [Hx | []]; discriminate
        | intros r;
          rewrite (RelayBufferFromCamera_no_buffer (with_attach r w) s c e Hc He)
            by (rewrite Hsame; cbn; auto);
          reflexivity ].
  rewrite (RelayBufferFromCamera_acquired w s c e b fence timestamp Hc He Hacq).
  assert (Hr : forall r,
             RelayBufferFromCamera (with_attach r w) s = _)
    by (intros r;
        exact (RelayBufferFromCamera_acquired (with_attach r w) s c e b fence timestamp
                 Hc He (Hsame r))).
  cbv zeta in Hr. cbn [with_attach w_AttachAndFlushBuffer] in Hr.
  destruct (decide (w_AttachAndFlushBuffer w b (-1) (full_extent b) ≠ GSERROR_OK));
    eexists _, _; (split; [reflexivity |]).
  all: destruct (bool_decide (0 <= fence)), (ExtractImuData (Some b)).1,
         (imuCallback_ s) as [cb |]; cbn.
  all: split_and!; [ lia | | ].
  all: try (intros r; rewrite (Hr r); destruct (decide (r ≠ GSERROR_OK)); reflexivity).
  all: intros f i d Hin; destruct_or!; simplify_eq.
  all: first
         [ solve [ exists [Upstream c AcquireBuffer; CloseFd fence];
                   eexists _, _, _; split; reflexivity ]
         | solve [ exists [Upstream c AcquireBuffer];
                   eexists _, _, _; split; reflexivity ] ].
Qed.

(** C3, as the code has it.  Every forward cycle invokes the metadata callback
    at most once.  An invocation is immediately followed by the
    attach-and-flush call, no call on the encoder queue precedes it, and
    whether it happens does not depend on what the encoder queue answers:
    the callback invocations of the cycle are the same under any answer to
    the attach-and-flush, a refusal included.  So a cycle whose forward
    fails has still invoked the callback when a callback is set and the
    acquired buffer carries 768 bytes of metadata: there is exactly one
    invocation, with the current frame index and those bytes, and the
    buffer then goes back to the camera queue with the state unchanged. *)
Theorem C3_metadata_callback_precedes_forward (w : World) (s : SurfaceBufferRelay) :
  exists s' log,
    RelayBufferFromCamera w s = Normal tt s' log
    /\ (length (imu_calls log) <= 1)%nat
    /\ (forall f i d,
          In (InvokeImuCallback f i d) log ->
          exists pre post e b,
            log = pre ++ InvokeImuCallback f i d
                      :: Downstream e (AttachAndFlushBuffer b (-1) (full_extent b))
                      :: post
            /\ downstream_calls pre = [])
    /\ (forall r,
          imu_calls (log_of (RelayBufferFromCamera (with_attach r w) s))
          = imu_calls log)
    /\ (forall c e f b fence timestamp,
          cameraConsumerSurface_ s = Some c ->
          encoderSurface_ s = Some e ->
          imuCallback_ s = Some f ->
          w_AcquireBuffer w = (GSERROR_OK, Some b, fence, timestamp) ->
          w_AttachAndFlushBuffer w b (-1) (full_extent b) ≠ GSERROR_OK ->
          (GetMetadata b ATTRKEY_ROI_METADATA).1 = GSERROR_OK ->
          length (GetMetadata b ATTRKEY_ROI_METADATA).2 = 768%nat ->
          s' = s
          /\ imu_calls log = [(frameIndex_ s, (GetMetadata b ATTRKEY_ROI_METADATA).2)]
          /\ In (InvokeImuCallback f (frameIndex_ s)
                   (GetMetadata b ATTRKEY_ROI_METADATA).2) log
          /\ In (Upstream c (ReleaseBuffer b (-1))) log).
Proof.
  destruct (RelayBufferFromCamera_callback_order w s)
    as (s' & log & Hrun & Hmost & Horder & Hsame).
  exists s', log. split_and!; try assumption.
  intros c e f b fence timestamp Hc He Hcb Hacq Hfail Hpresent Hlen.
  rewrite (RelayBufferFromCamera_acquired w s c e b fence timestamp Hc He Hacq) in Hrun.
  rewrite decide_True in Hrun by assumption.
  assert (Hex : (ExtractImuData (Some b)).1 = true)
    by (apply ExtractImuData_true; split; assumption).
  rewrite Hex, Hcb, ExtractImuData_bytes in Hrun.
  injection Hrun as <- <-.
  split_and!.
  - reflexivity.
  - destruct (bool_decide (0 <= fence)); reflexivity.
  - destruct (bool_decide (0 <= fence)); cbn; tauto.
  - destruct (bool_decide (0 <= fence)); cbn; tauto.
Qed.

(** ** Teardown *)

Lemma Release_outcome (s : SurfaceBufferRelay) :
  Release s =
    Normal tt (released s)
      (Write (St_isRunning false)
       :: match cameraConsumerSurface_ s with
          | Some c => [Upstream c UnregisterConsumerListener;
                       Write (St_cameraConsumerSurface None)]
          | None => []
          end
       ++ [Write (St_cameraProducerSurface None);
           Write (St_encoderSurface None);
           Lock_bufferMapMutex;
           Write St_bufferMap_clear;
           Unlock_bufferMapMutex]).
Proof.
  destruct s as [[c |] prod enc regs cbk idx run]; reflexivity.
Qed.

Lemma released_released (s : SurfaceBufferRelay) : released (released s) = released s.
Proof. reflexivity. Qed.

(** C9, refuted as stated.  The second of two calls of [Release] finds no
    upstream endpoint and unregisters nothing: it makes no call on any queue.
    So does the only call on an engine that was never initialised. *)
Lemma C9_repeated_Release_unregisters_nothing :
  (Release;; Release) bound_idle
  = Normal tt (released bound_idle)
      [Write (St_isRunning false);
       Upstream 1 UnregisterConsumerListener;
       Write (St_cameraConsumerSurface None);
       Write (St_cameraProducerSurface None);
       Write (St_encoderSurface None);
       Lock_bufferMapMutex;
       Write St_bufferMap_clear;
       Unlock_bufferMapMutex;
       Write (St_isRunning false);
       Write (St_cameraProducerSurface None);
       Write (St_encoderSurface None);
       Lock_bufferMapMutex;
       Write St_bufferMap_clear;
       Unlock_bufferMapMutex]
  /\ upstream_calls (log_of (Release (released bound_idle))) = []
  /\ upstream_calls (log_of (Release constructed)) = [].
Proof. split_and!; reflexivity. Qed.

(** C9, as the code has it.  [Release] always returns, and leaves the engine
    not running, with both endpoints and the producer surface dropped and the
    registry empty (callback and frame index are kept).  Its first action is
    the write of [false] to the running flag; when an upstream endpoint is
    held, the listener is unregistered on it before the reference is dropped;
    the registry is cleared last, between taking and releasing its mutex.  A
    second call finds no upstream endpoint, makes no call on any queue, and
    leaves the state exactly as the first call left it. *)
Theorem C9_Release_idempotent (s : SurfaceBufferRelay) :
  exists s1 log1 log2,
    Release s = Normal tt s1 log1
    /\ Release s1 = Normal tt s1 log2
    /\ s1 = released s
    /\ isRunning_ s1 = false
    /\ cameraConsumerSurface_ s1 = None
    /\ cameraProducerSurface_ s1 = None
    /\ encoderSurface_ s1 = None
    /\ bufferMap_ s1 = ∅
    /\ log1 = Write (St_isRunning false)
              :: match cameraConsumerSurface_ s with
                 | Some c => [Upstream c UnregisterConsumerListener;
                              Write (St_cameraConsumerSurface None)]
                 | None => []
                 end
              ++ [Write (St_cameraProducerSurface None);
                  Write (St_encoderSurface None);
                  Lock_bufferMapMutex;
                  Write St_bufferMap_clear;
                  Unlock_bufferMapMutex]
    /\ log2 = [Write (St_isRunning false);
               Write (St_cameraProducerSurface None);
               Write (St_encoderSurface None);
               Lock_bufferMapMutex;
               Write St_bufferMap_clear;
               Unlock_bufferMapMutex].
Proof.
  exists (released s). eexists _, _.
  split; [apply Release_outcome |].
  split; [rewrite Release_outcome, released_released; reflexivity |].
  split_and!; reflexivity.
Qed.

Lemma OnBufferAvailable_after_Release (w : World) (s : SurfaceBufferRelay) :
  OnBufferAvailable w (released s) = Normal tt (released s) [].
Proof. apply OnBufferAvailable_stopped. reflexivity. Qed.

Lemma OnEncoderReleaseBuffer_null (w : World) (fence : Z) (s : SurfaceBufferRelay) :
  OnEncoderReleaseBuffer w None fence s = Normal tt s [].
Proof. reflexivity. Qed.

(** A release callback that carries a buffer makes its first call through
    [encoderSurface_]; with that reference null the call is a fault. *)
Lemma OnEncoderReleaseBuffer_unbound
  (w : World) (b : SurfaceBuffer) (fence : Z) (s : SurfaceBufferRelay) :
  encoderSurface_ s = None ->
  OnEncoderReleaseBuffer w (Some b) fence s = NullDeref [].
Proof.
  intros He. relay_fields s. reflexivity.
Qed.

(** C2, evaluated.  An engine is set up, torn down with [Release], and then
    receives a late notification and a late release callback.  The
    notification is discarded without any action.  The release callback for a
    buffer dereferences the encoder endpoint that [Release] has just set to
    null: the run ends in a fault instead of returning. *)
Theorem C2_release_callback_after_Release_faults :
  (Release;; OnBufferAvailable (world_ok buffer_imu)) bound_idle
  = Normal tt (released bound_idle)
      [Write (St_isRunning false);
       Upstream 1 UnregisterConsumerListener;
       Write (St_cameraConsumerSurface None);
       Write (St_cameraProducerSurface None);
       Write (St_encoderSurface None);
       Lock_bufferMapMutex;
       Write St_bufferMap_clear;
       Unlock_bufferMapMutex]
  /\ OnEncoderReleaseBuffer (world_ok buffer_imu) (Some buffer_plain) 11
       (released bound_idle)
     = NullDeref []
  /\ (Init (world_ok buffer_imu) 1920 1080 12;;
      SetEncoderSurface (world_ok buffer_imu) (Some 7);;
      SetImuDataCallback (Some 9);;
      Release;;
      OnEncoderReleaseBuffer (world_ok buffer_imu) (Some buffer_plain) 11) constructed
     = NullDeref
         [IConsumerSurface_Create;
          Write (St_cameraConsumerSurface (Some 1));
          Upstream 1 (SetDefaultWidthAndHeight 1920 1080);
          Upstream 1 (SetDefaultFormat 12);
          Upstream 1 (SetDefaultUsage [BUFFER_USAGE_CPU_READ; BUFFER_USAGE_MEM_DMA]);
          Upstream 1 RegisterConsumerListener;
          Upstream 1 GetProducer;
          Surface_CreateSurfaceAsProducer 2;
          Write (St_cameraProducerSurface (Some 3));
          Write (St_isRunning true);
          Write (St_encoderSurface (Some 7));
          Downstream 7 RegisterReleaseListener;
          Write (St_imuCallback (Some 9));
          Write (St_isRunning false);
          Upstream 1 UnregisterConsumerListener;
          Write (St_cameraConsumerSurface None);
          Write (St_cameraProducerSurface None);
          Write (St_encoderSurface None);
          Lock_bufferMapMutex;
          Write St_bufferMap_clear;
          Unlock_bufferMapMutex].
Proof. split_and!; reflexivity. Qed.

(** ** Release callback for a buffer that is not in the registry *)

(** C1, refuted as stated.  With both endpoints bound and an empty registry, a
    release callback for a buffer nobody registered detaches it from the
    encoder queue and releases it to the camera queue. *)
Lemma C1_unregistered_buffer_is_returned_upstream :
  bufferMap_ bound_idle !! GetVirAddr buffer_plain = None
  /\ OnEncoderReleaseBuffer (world_ok buffer_imu) (Some buffer_plain) 11 bound_idle
     = Normal tt bound_idle
         [Downstream 7 (RequestAndDetachBuffer buffer_plain 11);
          Upstream 1 (ReleaseBuffer buffer_plain 11);
          Lock_bufferMapMutex;
          Write (St_bufferMap_erase 4096);
          Unlock_bufferMapMutex]
  /\ In (ReleaseBuffer buffer_plain 11)
       (upstream_calls
          (log_of (OnEncoderReleaseBuffer (world_ok buffer_imu) (Some buffer_plain) 11
                     bound_idle))).
Proof. split_and!; [reflexivity | reflexivity | vm_compute; left; reflexivity]. Qed.

(** C1, as the code has it.  While the encoder endpoint is bound, a release
    callback for a buffer whose address is not in the registry returns
    normally and leaves every field of the engine, the registry included, as
    it was.  The buffer is not ignored: it is requested-and-detached from the
    encoder queue and, when an upstream endpoint is held, released to it with
    the fence of the callback; the only write is the erase of the absent
    key. *)
Theorem C1_release_of_unregistered_buffer
  (w : World) (s : SurfaceBufferRelay) (e : SurfaceRef) (b : SurfaceBuffer) (fence : Z) :
  encoderSurface_ s = Some e ->
  bufferMap_ s !! GetVirAddr b = None ->
  exists log,
    OnEncoderReleaseBuffer w (Some b) fence s = Normal tt s log
    /\ downstream_calls log = [RequestAndDetachBuffer b fence]
    /\ upstream_calls log
       = (if is_null (cameraConsumerSurface_ s) then [] else [ReleaseBuffer b fence])
    /\ writes log = [St_bufferMap_erase (GetVirAddr b)].
Proof.
  intros He Habsent. relay_fields s.
  destruct cons as [c |]; relay_eval;
    [ destruct (decide (w_ReleaseBuffer w b fence ≠ GSERROR_OK)); relay_eval | ];
    rewrite (delete_id _ _ Habsent);
    eexists; split_and!; reflexivity.
Qed.

(** ** Initialisation *)

Lemma Init_outcome (w : World) (width height format : Z) (s : SurfaceBufferRelay) :
  exists r s' log,
    Init w width height format s = Normal r s' log
    /\ encoderSurface_ s' = encoderSurface_ s
    /\ cameraConsumerSurface_ s' = w_Create w
    /\ ~ In UnregisterConsumerListener (upstream_calls log)
    /\ (r = DCAMERA_OK <-> init_substeps_succeed w)
    /\ (r = DCAMERA_OK ->
        isRunning_ s' = true
        /\ exists pre, log = pre ++ [Write (St_isRunning true)]
                       /\ Forall leaves_running_flag (writes pre))
    /\ (r ≠ DCAMERA_OK ->
        isRunning_ s' = isRunning_ s /\ Forall leaves_running_flag (writes log))
    /\ (w_Create w = None -> r = DCAMERA_INIT_ERR)
    /\ (is_Some (w_Create w) -> w_RegisterConsumerListener w ≠ GSERROR_OK ->
        r = DCAMERA_BAD_OPERATE)
    /\ (is_Some (w_Create w) -> w_RegisterConsumerListener w = GSERROR_OK ->
        w_GetProducer w = None
        \/ (exists p, w_GetProducer w = Some p /\ w_CreateSurfaceAsProducer w p = None) ->
        r = DCAMERA_INIT_ERR).
Proof.
  unfold init_substeps_succeed.
  destruct w as [wc wr wp wcs wrl wa waf wrd wrb].
  unfold Init.
  cbn [w_Create w_RegisterConsumerListener w_GetProducer w_CreateSurfaceAsProducer].
  destruct s as [cons prod enc regs cbk idx run].
  assert (Hnone : forall A, ~ is_Some (@None A)) by (intros A [x Hx]; discriminate).
  assert (Hleaves : forall l, Forall leaves_running_flag l <->
                              forall st, In st l -> forall v, st ≠ St_isRunning v).
  { intros l. apply List.Forall_forall. }
  destruct wc as [c |]; relay_eval;
    [ destruct (decide (wr ≠ GSERROR_OK)) as [Hwr | Hwr]; relay_eval;
      [ | destruct wp as [p |]; relay_eval;
          [ destruct (wcs p) as [ps |] eqn:Hps; relay_eval | ] ] | ].
  all: eexists _, _, _; (split; [reflexivity |]).
  all: cbn [encoderSurface_ cameraConsumerSurface_ isRunning_].
  all: split_and!; try reflexivity; try discriminate; try tauto.
  all: try (intros Hin; vm_compute in Hin; intuition discriminate).
  all: try (intros _; split_and!; try reflexivity;
            apply Hleaves; intros st Hin v; vm_compute in Hin;
            intuition (subst; discriminate)).
  all: try (split; [ discriminate | ]).
  all: try (intros (Hc & Hr & p' & Hp & Hs); simplify_eq;
            first [ contradiction
                  | exfalso; eapply Hnone; eassumption
                  | rewrite Hps in Hs; exfalso; eapply Hnone; eassumption ]).
  all: try (intros _ _ [Hx | (p' & Hp & Hs)]; simplify_eq; congruence).
  all: try (intros Hx; exfalso; eapply Hnone; eassumption).
  all: try (intros _ Hx; contradiction).
  all: try (intros _ Hx; exfalso; apply Hwr; intros Hy; apply Hy, Hx).
  all: try (destruct (decide (wr = GSERROR_OK)); tauto).
  - split; [ intros _ | reflexivity ].
    split_and!.
    + eexists; reflexivity.
    + destruct (decide (wr = GSERROR_OK)); tauto.
    + exists p. rewrite Hps. split; [ reflexivity | eexists; reflexivity ].
  - intros _. split; [ reflexivity | ].
    exists [IConsumerSurface_Create; Write (St_cameraConsumerSurface (Some c));
            Upstream c (SetDefaultWidthAndHeight width height);
            Upstream c (SetDefaultFormat format);
            Upstream c (SetDefaultUsage [BUFFER_USAGE_CPU_READ; BUFFER_USAGE_MEM_DMA]);
            Upstream c RegisterConsumerListener; Upstream c GetProducer;
            Surface_CreateSurfaceAsProducer p;
            Write (St_cameraProducerSurface (Some ps))].
    split; [ reflexivity | ].
    apply Hleaves. intros st Hin v. vm_compute in Hin.
    intuition (subst; discriminate).
Qed.

(** C4, refuted as stated.  On a freshly constructed engine, with the consumer
    surface created and the listener registration refused, [Init] returns
    [DCAMERA_BAD_OPERATE], not [DCAMERA_INIT_ERR], and the consumer surface
    it created stays held: no unregister call, no reset of the field. *)
Lemma C4_listener_failure_keeps_endpoint :
  Init world_register_fails 1920 1080 12 constructed
  = Normal DCAMERA_BAD_OPERATE half_initialized
      [IConsumerSurface_Create;
       Write (St_cameraConsumerSurface (Some 1));
       Upstream 1 (SetDefaultWidthAndHeight 1920 1080);
       Upstream 1 (SetDefaultFormat 12);
       Upstream 1 (SetDefaultUsage [BUFFER_USAGE_CPU_READ; BUFFER_USAGE_MEM_DMA]);
       Upstream 1 RegisterConsumerListener]
  /\ DCAMERA_BAD_OPERATE ≠ DCAMERA_INIT_ERR
  /\ cameraConsumerSurface_ half_initialized = Some 1.
Proof. split_and!; [reflexivity | discriminate | reflexivity]. Qed.

(** C4, as the code has it.  [Init] always returns.  It returns [DCAMERA_OK]
    exactly when every sub-step succeeds, and then the running flag is true
    and its write is the last action, no earlier write touching the flag.
    A failed creation of the consumer surface, a missing producer or a failed
    creation of the producer surface give [DCAMERA_INIT_ERR]; a refused
    listener registration gives [DCAMERA_BAD_OPERATE].  On every failure the
    running flag is left as it was (no write touches it), and nothing is
    released: the consumer surface field holds what the creation returned and
    the listener is not unregistered. *)
Theorem C4_Init_outcome (w : World) (width height format : Z) (s : SurfaceBufferRelay) :
  exists r s' log,
    Init w width height format s = Normal r s' log
    /\ (r = DCAMERA_OK <-> init_substeps_succeed w)
    /\ (r = DCAMERA_OK ->
        isRunning_ s' = true
        /\ exists pre, log = pre ++ [Write (St_isRunning true)]
                       /\ Forall leaves_running_flag (writes pre))
    /\ (w_Create w = None -> r = DCAMERA_INIT_ERR)
    /\ (is_Some (w_Create w) -> w_RegisterConsumerListener w ≠ GSERROR_OK ->
        r = DCAMERA_BAD_OPERATE)
    /\ (is_Some (w_Create w) -> w_RegisterConsumerListener w = GSERROR_OK ->
        w_GetProducer w = None
        \/ (exists p, w_GetProducer w = Some p /\ w_CreateSurfaceAsProducer w p = None) ->
        r = DCAMERA_INIT_ERR)
    /\ (r ≠ DCAMERA_OK ->
        isRunning_ s' = isRunning_ s
        /\ Forall leaves_running_flag (writes log)
        /\ cameraConsumerSurface_ s' = w_Create w
        /\ ~ In UnregisterConsumerListener (upstream_calls log)).
Proof.
  destruct (Init_outcome w width height format s)
    as (r & s' & log & Hrun & _ & Hcons & Hunreg & Hok & Hlast & Hfail & H1 & H2 & H3).
  exists r, s', log. split_and!; try assumption.
  intros Hr. destruct (Hfail Hr) as [Hflag Hwrites]. split_and!; assumption.
Qed.

(** ** Notification before the encoder surface is set *)

(** C10.  After a successful [Init] on an engine that has no encoder surface,
    the running flag is true and the encoder surface is still null.  A
    buffer-available notification then passes the running check, enters
    [RelayBufferFromCamera] and returns at its null check: the log is empty
    (no acquire on the camera queue, no write) and the state, registry and
    frame index included, is unchanged. *)
Theorem C10_notification_before_bind_is_noop
  (w0 : World) (width height format : Z) (w : World)
  (s s' : SurfaceBufferRelay) (log : list Event) :
  encoderSurface_ s = None ->
  Init w0 width height format s = Normal DCAMERA_OK s' log ->
  isRunning_ s' = true
  /\ encoderSurface_ s' = None
  /\ OnBufferAvailable w s' = RelayBufferFromCamera w s'
  /\ OnBufferAvailable w s' = Normal tt s' []
  /\ upstream_calls (log_of (OnBufferAvailable w s')) = []
  /\ writes (log_of (OnBufferAvailable w s')) = [].
Proof.
  intros He Hinit.
  destruct (Init_outcome w0 width height format s)
    as (r & s1 & log1 & Hrun & Henc & _ & _ & _ & Hlast & _).
  rewrite Hinit in Hrun. simplify_eq.
  destruct (Hlast eq_refl) as [Hflag _].
  assert (He' : encoderSurface_ s1 = None) by congruence.
  assert (Hnoop : OnBufferAvailable w s1 = Normal tt s1 []).
  { rewrite (OnBufferAvailable_running w s1 Hflag).
    apply RelayBufferFromCamera_not_ready. auto. }
  split_and!; try assumption.
  - apply OnBufferAvailable_running, Hflag.
  - rewrite Hnoop. reflexivity.
  - rewrite Hnoop. reflexivity.
Qed.

(** C10 at the engine a successful [Init] leaves of the constructed one. *)
Lemma C10_notification_before_bind_witness :
  isRunning_ initialized = true
  /\ encoderSurface_ initialized = None
  /\ OnBufferAvailable (world_ok buffer_imu) initialized
     = RelayBufferFromCamera (world_ok buffer_imu) initialized
  /\ OnBufferAvailable (world_ok buffer_imu) initialized = Normal tt initialized []
  /\ upstream_calls (log_of (OnBufferAvailable (world_ok buffer_imu) initialized)) = []
  /\ writes (log_of (OnBufferAvailable (world_ok buffer_imu) initialized)) = [].
Proof.
  eapply (C10_notification_before_bind_is_noop
            (world_ok buffer_imu) 1920 1080 12 (world_ok buffer_imu)
            constructed initialized).
  - reflexivity.
  - reflexivity.
Defined.

(** ** Evaluated instances *)

(** C3, refuted as stated.  The buffer carries 768 bytes of metadata and the
    encoder queue refuses it: the forward step fails, and the callback has
    been invoked all the same, with frame index 0. *)
Lemma C3_callback_fires_although_forward_fails :
  AttachBufferToEncoder world_attach_fails (Some buffer_imu) bound_idle
  = Normal DCAMERA_BAD_OPERATE bound_idle
      [Downstream 7 (AttachAndFlushBuffer buffer_imu (-1) (full_extent buffer_imu))]
  /\ RelayBufferFromCamera world_attach_fails bound_idle
     = Normal tt bound_idle
         [Upstream 1 AcquireBuffer;
          CloseFd 5;
          InvokeImuCallback 9 0 imu768;
          Downstream 7 (AttachAndFlushBuffer buffer_imu (-1) (full_extent buffer_imu));
          Upstream 1 (ReleaseBuffer buffer_imu (-1))]
  /\ imu_calls (log_of (RelayBufferFromCamera world_attach_fails bound_idle))
     = [(0, imu768)].
Proof. split_and!; vm_compute; reflexivity. Qed.

(** C1 (as the code has it) at an idle engine with an empty registry. *)
Lemma C1_unregistered_release_witness :
  exists log,
    OnEncoderReleaseBuffer (world_ok buffer_imu) (Some buffer_plain) 11 bound_idle
    = Normal tt bound_idle log
    /\ downstream_calls log = [RequestAndDetachBuffer buffer_plain 11]
    /\ upstream_calls log
       = (if is_null (cameraConsumerSurface_ bound_idle) then []
          else [ReleaseBuffer buffer_plain 11])
    /\ writes log = [St_bufferMap_erase (GetVirAddr buffer_plain)].
Proof.
  apply (C1_release_of_unregistered_buffer
           (world_ok buffer_imu) bound_idle 7 buffer_plain 11).
  - reflexivity.
  - reflexivity.
Defined.

(** C5 at an idle engine whose encoder queue refuses the buffer. *)
Lemma C5_forward_failure_witness :
  exists s' pre,
    RelayBufferFromCamera world_attach_fails bound_idle
    = Normal tt s' (pre ++ [Upstream 1 (ReleaseBuffer buffer_imu (-1))])
    /\ upstream_calls pre = [AcquireBuffer]
    /\ writes pre = []
    /\ s' = bound_idle
    /\ bufferMap_ s' = bufferMap_ bound_idle
    /\ frameIndex_ s' = frameIndex_ bound_idle.
Proof.
  apply (C5_forward_failure_returns_buffer
           world_attach_fails bound_idle 1 7 buffer_imu 5 1000).
  - reflexivity.
  - reflexivity.
  - reflexivity.
  - vm_compute. discriminate.
Defined.

(** C6 at an idle engine and a buffer that carries 768 bytes of metadata. *)
Lemma C6_gating_witness :
  exists s' log,
    RelayBufferFromCamera (world_ok buffer_imu) bound_idle = Normal tt s' log
    /\ (imu_calls log ≠ [] <->
        (GetMetadata buffer_imu ATTRKEY_ROI_METADATA).1 = GSERROR_OK
        /\ length (GetMetadata buffer_imu ATTRKEY_ROI_METADATA).2 = 768%nat)
    /\ ((GetMetadata buffer_imu ATTRKEY_ROI_METADATA).1 = GSERROR_OK
        /\ length (GetMetadata buffer_imu ATTRKEY_ROI_METADATA).2 = 768%nat ->
        exists pre post,
          log = pre ++ InvokeImuCallback 9 (frameIndex_ bound_idle)
                         (GetMetadata buffer_imu ATTRKEY_ROI_METADATA).2 :: post
          /\ writes pre = [] /\ imu_calls pre = [] /\ imu_calls post = [])
    /\ (~ ((GetMetadata buffer_imu ATTRKEY_ROI_METADATA).1 = GSERROR_OK
           /\ length (GetMetadata buffer_imu ATTRKEY_ROI_METADATA).2 = 768%nat) ->
        imu_calls log = [])
    /\ In (Downstream 7 (AttachAndFlushBuffer buffer_imu (-1) (full_extent buffer_imu)))
         log.
Proof.
  apply (C6_metadata_gating (world_ok buffer_imu) bound_idle 1 7 9 buffer_imu 5 1000).
  - reflexivity.
  - reflexivity.
  - reflexivity.
  - reflexivity.
Defined.

(** C7 at an idle engine with frame index 0 and a buffer that carries 768
    bytes of metadata (Scenario C): the callback is invoked once, with frame
    index 0 and those bytes, the buffer is registered and the frame index
    becomes 1. *)
Lemma C7_forward_success_witness :
  exists s' pre,
    RelayBufferFromCamera (world_ok buffer_imu) bound_idle
    = Normal tt s' (pre ++ [Lock_bufferMapMutex;
                            Write (St_bufferMap_insert (GetVirAddr buffer_imu) buffer_imu);
                            Unlock_bufferMapMutex;
                            Write St_frameIndex_incr])
    /\ writes pre = []
    /\ bufferMap_ s' = <[GetVirAddr buffer_imu := buffer_imu]> (bufferMap_ bound_idle)
    /\ imu_calls pre = [(0, imu768)]
    /\ In (InvokeImuCallback 9 0 imu768) pre
    /\ frameIndex_ s' = 1.
Proof.
  destruct (C7_forward_success_registers_then_counts
              (world_ok buffer_imu) bound_idle 1 7 buffer_imu 5 1000
              eq_refl eq_refl eq_refl eq_refl)
    as (s' & pre & Hrun & Hwrites & Hmap & _ & _ & _ & _ & Hcallback).
  destruct (Hcallback 9 eq_refl eq_refl eq_refl) as (Hcalls & _ & Hfirst).
  destruct (Hfirst eq_refl) as (Hin & Hidx).
  exists s', pre.
  split; [ exact Hrun | ].
  split; [ exact Hwrites | ].
  split; [ exact Hmap | ].
  split; [ exact Hcalls | ].
  split; [ exact Hin | exact Hidx ].
Defined.

(** C8 at an idle engine whose camera queue has no buffer. *)
Lemma C8_acquire_failure_witness :
  RelayBufferFromCamera world_no_buffer bound_idle
  = Normal tt bound_idle [Upstream 1 AcquireBuffer]
  /\ imu_calls (log_of (RelayBufferFromCamera world_no_buffer bound_idle)) = []
  /\ writes (log_of (RelayBufferFromCamera world_no_buffer bound_idle)) = [].
Proof.
  apply (C8_acquire_failure_aborts_silently world_no_buffer bound_idle 1 7).
  - reflexivity.
  - reflexivity.
  - left. vm_compute. discriminate.
Defined.

(** Scenario C of the specification, from the constructor on: the first
    forwarded frame carries 768 bytes of metadata. *)
Example scenario_first_frame :
  (Init (world_ok buffer_imu) 1920 1080 12;;
   SetEncoderSurface (world_ok buffer_imu) (Some 7);;
   SetImuDataCallback (Some 9);;
   OnBufferAvailable (world_ok buffer_imu)) constructed
  = Normal tt
      {| cameraConsumerSurface_ := Some 1;
         cameraProducerSurface_ := Some 3;
         encoderSurface_ := Some 7;
         bufferMap_ := {[ 8192 := buffer_imu ]};
         imuCallback_ := Some 9;
         frameIndex_ := 1;
         isRunning_ := true |}
      [IConsumerSurface_Create;
       Write (St_cameraConsumerSurface (Some 1));
       Upstream 1 (SetDefaultWidthAndHeight 1920 1080);
       Upstream 1 (SetDefaultFormat 12);
       Upstream 1 (SetDefaultUsage [BUFFER_USAGE_CPU_READ; BUFFER_USAGE_MEM_DMA]);
       Upstream 1 RegisterConsumerListener;
       Upstream 1 GetProducer;
       Surface_CreateSurfaceAsProducer 2;
       Write (St_cameraProducerSurface (Some 3));
       Write (St_isRunning true);
       Write (St_encoderSurface (Some 7));
       Downstream 7 RegisterReleaseListener;
       Write (St_imuCallback (Some 9));
       Upstream 1 AcquireBuffer;
       CloseFd 5;
       InvokeImuCallback 9 0 imu768;
       Downstream 7 (AttachAndFlushBuffer buffer_imu (-1) (full_extent buffer_imu));
       Lock_bufferMapMutex;
       Write (St_bufferMap_insert 8192 buffer_imu);
       Unlock_bufferMapMutex;
       Write St_frameIndex_incr].
Proof. vm_compute. reflexivity. Qed.

(** Metadata of the wrong length: no callback, the buffer is forwarded and
    counted all the same. *)
Example scenario_short_metadata :
  RelayBufferFromCamera (world_ok buffer_short_imu) bound_idle
  = Normal tt
      {| cameraConsumerSurface_ := Some 1;
         cameraProducerSurface_ := Some 3;
         encoderSurface_ := Some 7;
         bufferMap_ := {[ 12288 := buffer_short_imu ]};
         imuCallback_ := Some 9;
         frameIndex_ := 1;
         isRunning_ := true |}
      [Upstream 1 AcquireBuffer;
       CloseFd 5;
       Downstream 7 (AttachAndFlushBuffer buffer_short_imu (-1)
                       (full_extent buffer_short_imu));
       Lock_bufferMapMutex;
       Write (St_bufferMap_insert 12288 buffer_short_imu);
       Unlock_bufferMapMutex;
       Write St_frameIndex_incr].
Proof. vm_compute. reflexivity. Qed.

(** Scenario E of the specification: a forwarded buffer comes back from the
    encoder, is detached, released to the camera queue and leaves the
    registry. *)
Example scenario_forward_then_release :
  (RelayBufferFromCamera (world_ok buffer_imu);;
   OnEncoderReleaseBuffer (world_ok buffer_imu) (Some buffer_imu) 11) bound_idle
  = Normal tt
      {| cameraConsumerSurface_ := Some 1;
         cameraProducerSurface_ := Some 3;
         encoderSurface_ := Some 7;
         bufferMap_ := ∅;
         imuCallback_ := Some 9;
         frameIndex_ := 1;
         isRunning_ := true |}
      [Upstream 1 AcquireBuffer;
       CloseFd 5;
       InvokeImuCallback 9 0 imu768;
       Downstream 7 (AttachAndFlushBuffer buffer_imu (-1) (full_extent buffer_imu));
       Lock_bufferMapMutex;
       Write (St_bufferMap_insert 8192 buffer_imu);
       Unlock_bufferMapMutex;
       Write St_frameIndex_incr;
       Downstream 7 (RequestAndDetachBuffer buffer_imu 11);
       Upstream 1 (ReleaseBuffer buffer_imu 11);
       Lock_bufferMapMutex;
       Write (St_bufferMap_erase 8192);
       Unlock_bufferMapMutex].
Proof. vm_compute. reflexivity. Qed.

(** The counter wraps at the width of uint32. *)
Example scenario_frame_index_wraps :
  frameIndex_ (apply_store St_frameIndex_incr
                 (mkRelay (Some 1) (Some 3) (Some 7) ∅ (Some 9) 4294967295 true))
  = 0.
Proof. reflexivity. Qed.

(** ** Further properties: setting up *)

Lemma Init_fields (w : World) (width height format : Z) (s : SurfaceBufferRelay) :
  exists r s' log,
    Init w width height format s = Normal r s' log
    /\ encoderSurface_ s' = encoderSurface_ s
    /\ bufferMap_ s' = bufferMap_ s
    /\ imuCallback_ s' = imuCallback_ s
    /\ frameIndex_ s' = frameIndex_ s
    /\ (isRunning_ s = true -> isRunning_ s' = true)
    /\ well_locked_from false log = true
    /\ registered log = []
    /\ (r = DCAMERA_OK ->
        exists c p ps,
          w_Create w = Some c /\ w_GetProducer w = Some p
          /\ w_CreateSurfaceAsProducer w p = Some ps
          /\ cameraConsumerSurface_ s' = Some c
          /\ cameraProducerSurface_ s' = Some ps).
Proof.
  destruct w as [wc wr wp wcs wrl wa waf wrd wrb].
  unfold Init.
  cbn [w_Create w_RegisterConsumerListener w_GetProducer w_CreateSurfaceAsProducer].
  destruct s as [cons prod enc regs cbk idx run].
  destruct wc as [c |]; relay_eval;
    [ destruct (decide (wr ≠ GSERROR_OK)) as [Hwr | Hwr]; relay_eval;
      [ | destruct wp as [p |]; relay_eval;
          [ destruct (wcs p) as [ps |] eqn:Hps; relay_eval | ] ] | ].
  all: eexists _, _, _; (split; [reflexivity |]).
  all: cbn [encoderSurface_ bufferMap_ imuCallback_ frameIndex_ isRunning_
            cameraConsumerSurface_ cameraProducerSurface_].
  all: split_and!; try reflexivity; try (intros; assumption); try discriminate.
  intros _. exists c, p, ps. rewrite Hps. split_and!; reflexivity.
Qed.

(** [SetEncoderSurface] always returns.  A null argument is rejected with
    [DCAMERA_BAD_VALUE] and nothing happens, so an encoder surface bound
    earlier stays bound.  A non-null argument is stored before the release
    listener is registered on it, and stays stored when that registration is
    refused: the result is then [DCAMERA_BAD_OPERATE], otherwise
    [DCAMERA_OK]. *)
Theorem SetEncoderSurface_binds_before_registering
  (w : World) (encoderSurface : option SurfaceRef) (s : SurfaceBufferRelay) :
  exists r s' log,
    SetEncoderSurface w encoderSurface s = Normal r s' log
    /\ (r = DCAMERA_BAD_VALUE <-> encoderSurface = None)
    /\ (encoderSurface = None -> s' = s /\ log = [])
    /\ (forall e, encoderSurface = Some e ->
          s' = apply_store (St_encoderSurface (Some e)) s
          /\ log = [Write (St_encoderSurface (Some e));
                    Downstream e RegisterReleaseListener]
          /\ (r = DCAMERA_OK <-> w_RegisterReleaseListener w = GSERROR_OK)
          /\ (r = DCAMERA_BAD_OPERATE <-> w_RegisterReleaseListener w ≠ GSERROR_OK)).
Proof.
  destruct s as [cons prod enc regs cbk idx run].
  destruct encoderSurface as [e |]; relay_eval;
    [ destruct (decide (w_RegisterReleaseListener w ≠ GSERROR_OK)) as [Hr | Hr];
      relay_eval | ].
  all: eexists _, _, _; (split; [reflexivity |]).
  all: split_and!; try (split; intros; congruence);
    try (intros; discriminate); try (intros; split; reflexivity).
  all: intros e' He'; simplify_eq; split_and!; try reflexivity.
  all: split; intros Hx; try discriminate; try reflexivity; try assumption;
    try contradiction.
  all: destruct (decide (w_RegisterReleaseListener w = GSERROR_OK)); tauto.
Qed.

(** A surface whose release-listener registration was refused is used all the
    same: the next notification of a running engine with a camera surface
    attaches the acquired buffer to it and registers the buffer. *)
Theorem forward_after_refused_release_listener
  (w0 w : World) (s : SurfaceBufferRelay) (c : ConsumerSurfaceRef) (e : SurfaceRef)
  (b : SurfaceBuffer) (fence timestamp : Z) :
  cameraConsumerSurface_ s = Some c ->
  isRunning_ s = true ->
  w_RegisterReleaseListener w0 ≠ GSERROR_OK ->
  w_AcquireBuffer w = (GSERROR_OK, Some b, fence, timestamp) ->
  w_AttachAndFlushBuffer w b (-1) (full_extent b) = GSERROR_OK ->
  exists s1 log1 s2 log2,
    SetEncoderSurface w0 (Some e) s = Normal DCAMERA_BAD_OPERATE s1 log1
    /\ OnBufferAvailable w s1 = Normal tt s2 log2
    /\ In (Downstream e (AttachAndFlushBuffer b (-1) (full_extent b))) log2
    /\ bufferMap_ s2 !! GetVirAddr b = Some b.
Proof.
  intros Hc Hrun Hreg Hacq Hok.
  exists (apply_store (St_encoderSurface (Some e)) s), 
    [Write (St_encoderSurface (Some e)); Downstream e RegisterReleaseListener].
  assert (Hset : SetEncoderSurface w0 (Some e) s
                 = Normal DCAMERA_BAD_OPERATE
                     (apply_store (St_encoderSurface (Some e)) s)
                     [Write (St_encoderSurface (Some e));
                      Downstream e RegisterReleaseListener]).
  { destruct s as [cons prod enc regs cbk idx run]. relay_eval.
    destruct (decide (w_RegisterReleaseListener w0 ≠ GSERROR_OK)); [reflexivity | contradiction]. }
  set (s1 := apply_store (St_encoderSurface (Some e)) s) in *.
  assert (Hc1 : cameraConsumerSurface_ s1 = Some c) by exact Hc.
  assert (He1 : encoderSurface_ s1 = Some e) by reflexivity.
  assert (Hrun1 : isRunning_ s1 = true) by exact Hrun.
  rewrite (OnBufferAvailable_running w s1 Hrun1).
  rewrite (RelayBufferFromCamera_acquired w s1 c e b fence timestamp Hc1 He1 Hacq).
  rewrite decide_False by (intros H; apply H, Hok).
  eexists _, _. split_and!; [ exact Hset | reflexivity | | ].
  - rewrite !in_app_iff. left. right. right. right. left. reflexivity.
  - cbn. apply lookup_insert_eq.
Qed.

(** For [forward_after_refused_release_listener]: the encoder refuses the
    listener, the engine is initialised and running. *)
Lemma forward_after_refused_release_listener_witness :
  exists s1 log1 s2 log2,
    SetEncoderSurface world_release_listener_fails (Some 7) initialized
    = Normal DCAMERA_BAD_OPERATE s1 log1
    /\ OnBufferAvailable (world_ok buffer_imu) s1 = Normal tt s2 log2
    /\ In (Downstream 7 (AttachAndFlushBuffer buffer_imu (-1) (full_extent buffer_imu)))
         log2
    /\ bufferMap_ s2 !! GetVirAddr buffer_imu = Some buffer_imu.
Proof.
  apply (forward_after_refused_release_listener
           world_release_listener_fails (world_ok buffer_imu) initialized
           1 7 buffer_imu 5 1000).
  - reflexivity.
  - reflexivity.
  - vm_compute. discriminate.
  - reflexivity.
  - reflexivity.
Defined.

(** Scenario A.  When [Init] returns [DCAMERA_OK], [GetCameraSurface] returns
    the non-null producer surface that was created from the consumer
    surface's producer, and reading it changes nothing. *)
Theorem GetCameraSurface_after_Init
  (w : World) (width height format : Z) (s s' : SurfaceBufferRelay) (log : list Event) :
  Init w width height format s = Normal DCAMERA_OK s' log ->
  exists p ps,
    w_GetProducer w = Some p
    /\ w_CreateSurfaceAsProducer w p = Some ps
    /\ GetCameraSurface s' = Normal (Some ps) s' [].
Proof.
  intros Hinit.
  destruct (Init_fields w width height format s)
    as (r & s1 & log1 & Hrun & _ & _ & _ & _ & _ & _ & _ & Hok).
  rewrite Hinit in Hrun. simplify_eq.
  destruct (Hok eq_refl) as (c & p & ps & _ & Hp & Hps & _ & Hprod).
  exists p, ps. split_and!; try assumption.
  unfold GetCameraSurface, load. rewrite Hprod. reflexivity.
Qed.

(** For [GetCameraSurface_after_Init]: the first initialisation of a
    constructed engine. *)
Lemma GetCameraSurface_after_Init_witness :
  exists p ps,
    w_GetProducer (world_ok buffer_imu) = Some p
    /\ w_CreateSurfaceAsProducer (world_ok buffer_imu) p = Some ps
    /\ GetCameraSurface initialized = Normal (Some ps) initialized [].
Proof.
  eapply (GetCameraSurface_after_Init (world_ok buffer_imu) 1920 1080 12
            constructed initialized).
  reflexivity.
Defined.

(** [Init] touches neither the encoder surface, the registry, the callback
    nor the frame index, and never clears the running flag: called again on
    a running engine, it leaves the buffers in flight registered, the frame
    count where it was and the engine running, whatever it returns. *)
Theorem Init_keeps_registry_counter_and_running_flag
  (w : World) (width height format : Z) (s : SurfaceBufferRelay) :
  exists r s' log,
    Init w width height format s = Normal r s' log
    /\ encoderSurface_ s' = encoderSurface_ s
    /\ bufferMap_ s' = bufferMap_ s
    /\ imuCallback_ s' = imuCallback_ s
    /\ frameIndex_ s' = frameIndex_ s
    /\ (isRunning_ s = true -> isRunning_ s' = true).
Proof.
  destruct (Init_fields w width height format s)
    as (r & s' & log & Hrun & He & Hm & Hcb & Hi & Hflag & _).
  exists r, s', log. split_and!; assumption.
Qed.

(** ** Further properties: the release path *)

(** The three ways a release callback can go. *)
Lemma OnEncoderReleaseBuffer_cases
  (w : World) (buffer : option SurfaceBuffer) (fence : Z) (s : SurfaceBufferRelay) :
  (buffer = None /\ OnEncoderReleaseBuffer w buffer fence s = Normal tt s [])
  \/ (exists b, buffer = Some b /\ encoderSurface_ s = None
                /\ OnEncoderReleaseBuffer w buffer fence s = NullDeref [])
  \/ (exists b e,
        buffer = Some b /\ encoderSurface_ s = Some e
        /\ OnEncoderReleaseBuffer w buffer fence s
           = Normal tt (apply_store (St_bufferMap_erase (GetVirAddr b)) s)
               ([Downstream e (RequestAndDetachBuffer b fence)]
                ++ match cameraConsumerSurface_ s with
                   | Some c => [Upstream c (ReleaseBuffer b fence)]
                   | None => []
                   end
                ++ [Lock_bufferMapMutex;
                    Write (St_bufferMap_erase (GetVirAddr b));
                    Unlock_bufferMapMutex])).
Proof.
  destruct buffer as [b |]; [ | left; split; reflexivity ].
  right. destruct (encoderSurface_ s) as [e |] eqn:He.
  - right. exists b, e. split_and!; try reflexivity.
    relay_fields s.
    destruct cons as [c |]; relay_eval;
      [ destruct (decide (w_ReleaseBuffer w b fence ≠ GSERROR_OK)); relay_eval | ];
      reflexivity.
  - left. exists b. split_and!; try reflexivity.
    apply OnEncoderReleaseBuffer_unbound, He.
Qed.

(** A release callback returns normally exactly when it carries no buffer or
    the encoder surface is set; otherwise it stops at its first call, before
    any action. *)
Theorem OnEncoderReleaseBuffer_returns_iff_bound
  (w : World) (buffer : option SurfaceBuffer) (fence : Z) (s : SurfaceBufferRelay) :
  ((exists s' log, OnEncoderReleaseBuffer w buffer fence s = Normal tt s' log)
   <-> buffer = None \/ is_Some (encoderSurface_ s))
  /\ (OnEncoderReleaseBuffer w buffer fence s = NullDeref []
      <-> is_Some buffer /\ encoderSurface_ s = None).
Proof.
  destruct (OnEncoderReleaseBuffer_cases w buffer fence s)
    as [(Hb & Hrun) | [(b & Hb & He & Hrun) | (b & e & Hb & He & Hrun)]];
    rewrite Hrun; subst buffer; rewrite ?He.
  - split; split.
    + intros _. left. reflexivity.
    + intros _. eexists _, _. reflexivity.
    + discriminate.
    + intros [[x Hx] _]. discriminate.
  - split; split.
    + intros (s' & log & Hx). discriminate.
    + intros [Hx | [x Hx]]; discriminate.
    + intros _. split; [ eexists; reflexivity | reflexivity ].
    + reflexivity.
  - split; split.
    + intros _. right. eexists. reflexivity.
    + intros _. eexists _, _. reflexivity.
    + discriminate.
    + intros [_ Hx]. discriminate.
Qed.

(** What the two queues answer to the detach and to the release has no
    influence on a release callback: state, log and the way it ends are the
    same in any two worlds.  A failed detach does not stop the return to the
    camera queue, and a failed return is neither reported nor does it keep
    the buffer in the registry. *)
Theorem OnEncoderReleaseBuffer_ignores_answers
  (w w' : World) (buffer : option SurfaceBuffer) (fence : Z) (s : SurfaceBufferRelay) :
  OnEncoderReleaseBuffer w buffer fence s = OnEncoderReleaseBuffer w' buffer fence s.
Proof.
  destruct (OnEncoderReleaseBuffer_cases w buffer fence s)
    as [(Hb & Hrun) | [(b & Hb & He & Hrun) | (b & e & Hb & He & Hrun)]];
    destruct (OnEncoderReleaseBuffer_cases w' buffer fence s)
    as [(Hb' & Hrun') | [(b' & Hb' & He' & Hrun') | (b' & e' & Hb' & He' & Hrun')]];
    rewrite Hrun, Hrun'; simplify_eq; reflexivity.
Qed.

(** Scenario E in general.  With both endpoints set, a release callback for a
    buffer detaches it from the encoder queue, releases it to the camera
    queue with the callback's fence, and erases its address from the
    registry under the mutex: afterwards the address is absent, every other
    entry and every other field is as before. *)
Theorem OnEncoderReleaseBuffer_returns_and_unregisters
  (w : World) (s : SurfaceBufferRelay) (c : ConsumerSurfaceRef) (e : SurfaceRef)
  (b : SurfaceBuffer) (fence : Z) :
  cameraConsumerSurface_ s = Some c ->
  encoderSurface_ s = Some e ->
  exists s',
    OnEncoderReleaseBuffer w (Some b) fence s
    = Normal tt s'
        [Downstream e (RequestAndDetachBuffer b fence);
         Upstream c (ReleaseBuffer b fence);
         Lock_bufferMapMutex;
         Write (St_bufferMap_erase (GetVirAddr b));
         Unlock_bufferMapMutex]
    /\ bufferMap_ s' = delete (GetVirAddr b) (bufferMap_ s)
    /\ bufferMap_ s' !! GetVirAddr b = None
    /\ (forall k, k ≠ GetVirAddr b -> bufferMap_ s' !! k = bufferMap_ s !! k)
    /\ cameraConsumerSurface_ s' = cameraConsumerSurface_ s
    /\ cameraProducerSurface_ s' = cameraProducerSurface_ s
    /\ encoderSurface_ s' = encoderSurface_ s
    /\ imuCallback_ s' = imuCallback_ s
    /\ frameIndex_ s' = frameIndex_ s
    /\ isRunning_ s' = isRunning_ s.
Proof.
  intros Hc He.
  destruct (OnEncoderReleaseBuffer_cases w (Some b) fence s)
    as [(Hb & _) | [(b' & Hb & He' & _) | (b' & e' & Hb & He' & Hrun)]];
    [ discriminate | congruence | ].
  simplify_eq. rewrite Hc in Hrun.
  eexists. split; [ exact Hrun | ].
  split_and!; try reflexivity.
  - cbn. apply lookup_delete_eq.
  - intros k Hk. cbn. apply lookup_delete_ne. congruence.
Qed.

(** For [OnEncoderReleaseBuffer_returns_and_unregisters]: the buffer in
    flight comes back. *)
Lemma OnEncoderReleaseBuffer_returns_and_unregisters_witness :
  exists s',
    OnEncoderReleaseBuffer world_return_fails (Some buffer_imu) 11 one_in_flight
    = Normal tt s'
        [Downstream 7 (RequestAndDetachBuffer buffer_imu 11);
         Upstream 1 (ReleaseBuffer buffer_imu 11);
         Lock_bufferMapMutex;
         Write (St_bufferMap_erase (GetVirAddr buffer_imu));
         Unlock_bufferMapMutex]
    /\ bufferMap_ s' = delete (GetVirAddr buffer_imu) (bufferMap_ one_in_flight)
    /\ bufferMap_ s' !! GetVirAddr buffer_imu = None
    /\ (forall k, k ≠ GetVirAddr buffer_imu ->
                  bufferMap_ s' !! k = bufferMap_ one_in_flight !! k)
    /\ cameraConsumerSurface_ s' = cameraConsumerSurface_ one_in_flight
    /\ cameraProducerSurface_ s' = cameraProducerSurface_ one_in_flight
    /\ encoderSurface_ s' = encoderSurface_ one_in_flight
    /\ imuCallback_ s' = imuCallback_ one_in_flight
    /\ frameIndex_ s' = frameIndex_ one_in_flight
    /\ isRunning_ s' = isRunning_ one_in_flight.
Proof.
  apply (OnEncoderReleaseBuffer_returns_and_unregisters
           world_return_fails one_in_flight 1 7 buffer_imu 11).
  - reflexivity.
  - reflexivity.
Defined.

(** Forwarding a buffer whose address is not in the registry and then
    receiving its release callback brings the engine back to the state
    before the forward, except that the frame index has advanced by one
    (modulo 2^32). *)
Theorem forward_then_release_restores_registry
  (w w' : World) (s : SurfaceBufferRelay) (c : ConsumerSurfaceRef) (e : SurfaceRef)
  (b : SurfaceBuffer) (fence timestamp fence' : Z) :
  cameraConsumerSurface_ s = Some c ->
  encoderSurface_ s = Some e ->
  bufferMap_ s !! GetVirAddr b = None ->
  w_AcquireBuffer w = (GSERROR_OK, Some b, fence, timestamp) ->
  w_AttachAndFlushBuffer w b (-1) (full_extent b) = GSERROR_OK ->
  exists log,
    (RelayBufferFromCamera w;; OnEncoderReleaseBuffer w' (Some b) fence') s
    = Normal tt (apply_store St_frameIndex_incr s) log
    /\ upstream_calls log = [AcquireBuffer; ReleaseBuffer b fence']
    /\ downstream_calls log = [AttachAndFlushBuffer b (-1) (full_extent b);
                               RequestAndDetachBuffer b fence'].
Proof.
  intros Hc He Habsent Hacq Hok.
  cbv [mbind M_bind].
  rewrite (RelayBufferFromCamera_acquired w s c e b fence timestamp Hc He Hacq).
  rewrite decide_False by (intros H; apply H, Hok).
  set (s1 := apply_store St_frameIndex_incr
               (apply_store (St_bufferMap_insert (GetVirAddr b) b) s)).
  destruct (OnEncoderReleaseBuffer_cases w' (Some b) fence' s1)
    as [(Hb & _) | [(b' & Hb & He' & _) | (b' & e' & Hb & He' & Hrun)]];
    [ discriminate | | ].
  { subst s1. cbn in He'. congruence. }
  assert (Hbb : b' = b) by congruence. subst b'. clear Hb.
  rewrite Hrun.
  assert (Hc1 : cameraConsumerSurface_ s1 = Some c) by exact Hc.
  assert (He1 : e' = e) by (subst s1; cbn in He'; congruence).
  rewrite Hc1. subst e'.
  assert (Hback : apply_store (St_bufferMap_erase (GetVirAddr b)) s1
                  = apply_store St_frameIndex_incr s).
  { subst s1. destruct s as [cons prod enc regs cbk idx run]. cbn in *.
    f_equal. rewrite delete_insert_eq. apply delete_id, Habsent. }
  rewrite Hback. eexists. split; [ reflexivity | ].
  destruct (bool_decide (0 <= fence)), (ExtractImuData (Some b)).1, (imuCallback_ s);
    split; reflexivity.
Qed.

(** For [forward_then_release_restores_registry]: one frame goes through an
    idle engine and comes back, although detach and release are answered
    with failures. *)
Lemma forward_then_release_restores_registry_witness :
  exists log,
    (RelayBufferFromCamera (world_ok buffer_imu);;
     OnEncoderReleaseBuffer world_return_fails (Some buffer_imu) 11) bound_idle
    = Normal tt (apply_store St_frameIndex_incr bound_idle) log
    /\ upstream_calls log = [AcquireBuffer; ReleaseBuffer buffer_imu 11]
    /\ downstream_calls log
       = [AttachAndFlushBuffer buffer_imu (-1) (full_extent buffer_imu);
          RequestAndDetachBuffer buffer_imu 11].
Proof.
  apply (forward_then_release_restores_registry
           (world_ok buffer_imu) world_return_fails bound_idle 1 7 buffer_imu 5 1000 11).
  - reflexivity.
  - reflexivity.
  - reflexivity.
  - reflexivity.
  - reflexivity.
Defined.

(** ** Further properties: the forward path *)

(** The three situations a forward cycle can find. *)
Lemma relay_input_cases (w : World) (s : SurfaceBufferRelay) :
  (cameraConsumerSurface_ s = None \/ encoderSurface_ s = None)
  \/ (exists c e,
        cameraConsumerSurface_ s = Some c /\ encoderSurface_ s = Some e
        /\ ((w_AcquireBuffer w).1.1.1 ≠ GSERROR_OK \/ (w_AcquireBuffer w).1.1.2 = None))
  \/ (exists c e b fence timestamp,
        cameraConsumerSurface_ s = Some c /\ encoderSurface_ s = Some e
        /\ w_AcquireBuffer w = (GSERROR_OK, Some b, fence, timestamp)).
Proof.
  destruct (cameraConsumerSurface_ s) as [c |]; [ | left; left; reflexivity ].
  destruct (encoderSurface_ s) as [e |]; [ | left; right; reflexivity ].
  right.
  destruct (w_AcquireBuffer w) as [[[ret buffer] fence] timestamp].
  destruct ret as [| code]; [ destruct buffer as [b |] | ].
  - right. exists c, e, b, fence, timestamp. split_and!; reflexivity.
  - left. exists c, e. split_and!; try reflexivity. right. reflexivity.
  - left. exists c, e. split_and!; try reflexivity. left. discriminate.
Qed.

(** [ExtractImuData] answers true exactly for a non-null buffer whose
    [GetMetadata] for key 4101 succeeds and leaves 768 bytes, and then hands
    out those bytes; a null buffer gives false and no bytes. *)
Theorem ExtractImuData_accepts_only_768_bytes (buffer : option SurfaceBuffer) :
  ((ExtractImuData buffer).1 = true <->
   exists b, buffer = Some b
             /\ (GetMetadata b 4101).1 = GSERROR_OK
             /\ length (GetMetadata b 4101).2 = 768%nat)
  /\ (forall b, buffer = Some b -> (ExtractImuData buffer).2 = (GetMetadata b 4101).2)
  /\ (buffer = None -> ExtractImuData buffer = (false, [])).
Proof.
  split_and!.
  - destruct buffer as [b |].
    + rewrite (ExtractImuData_true b). split.
      * intros [Hok Hlen]. exists b. split_and!; [ reflexivity | exact Hok | exact Hlen ].
      * intros (b' & Hb & Hok & Hlen). simplify_eq. split; assumption.
    + split; [ discriminate | intros (b' & Hb & _); discriminate ].
  - intros b ->. apply ExtractImuData_bytes.
  - intros ->. reflexivity.
Qed.

(** The two queue helpers.  Neither changes the engine.  Each returns
    [DCAMERA_BAD_VALUE] without calling the queue exactly when its endpoint
    or the buffer is null; otherwise it makes one call (attach-and-flush with
    fence -1 and the full extent, or release with the given fence) and
    returns [DCAMERA_OK] when the queue answers [GSERROR_OK] and
    [DCAMERA_BAD_OPERATE] when it does not. *)
Theorem queue_helpers_check_then_call_once
  (w : World) (buffer : option SurfaceBuffer) (fence : Z) (s : SurfaceBufferRelay) :
  (exists r log,
     AttachBufferToEncoder w buffer s = Normal r s log
     /\ (r = DCAMERA_BAD_VALUE <-> encoderSurface_ s = None \/ buffer = None)
     /\ (r = DCAMERA_BAD_VALUE -> log = [])
     /\ (forall e b, encoderSurface_ s = Some e -> buffer = Some b ->
           log = [Downstream e (AttachAndFlushBuffer b (-1) (full_extent b))]
           /\ (r = DCAMERA_OK <->
               w_AttachAndFlushBuffer w b (-1) (full_extent b) = GSERROR_OK)
           /\ (r = DCAMERA_BAD_OPERATE <->
               w_AttachAndFlushBuffer w b (-1) (full_extent b) ≠ GSERROR_OK)))
  /\ (exists r log,
        ReturnBufferToCamera w buffer fence s = Normal r s log
        /\ (r = DCAMERA_BAD_VALUE <-> cameraConsumerSurface_ s = None \/ buffer = None)
        /\ (r = DCAMERA_BAD_VALUE -> log = [])
        /\ (forall c b, cameraConsumerSurface_ s = Some c -> buffer = Some b ->
              log = [Upstream c (ReleaseBuffer b fence)]
              /\ (r = DCAMERA_OK <-> w_ReleaseBuffer w b fence = GSERROR_OK)
              /\ (r = DCAMERA_BAD_OPERATE <-> w_ReleaseBuffer w b fence ≠ GSERROR_OK))).
Proof.
  destruct s as [cons prod enc regs cbk idx run].
  split.
  - destruct enc as [e |], buffer as [b |]; relay_eval;
      try destruct (decide (w_AttachAndFlushBuffer w b (-1) (full_extent b) ≠ GSERROR_OK))
        as [Hr | Hr];
      relay_eval.
    all: eexists _, _; (split; [reflexivity |]).
    all: split_and!;
      try (split; [ intros Hx; discriminate | intros [Hx | Hx]; discriminate ]);
      try (split; [ intros _; auto | reflexivity ]);
      try (intros Hx; first [ discriminate | reflexivity ]);
      try (intros e' b' He' Hb'; discriminate).
    all: intros e' b' He' Hb'; simplify_eq; split_and!; try reflexivity.
    all: split; intros Hx; try discriminate; try reflexivity; try assumption;
      try contradiction.
    all: destruct (decide (w_AttachAndFlushBuffer w b' (-1) (full_extent b') = GSERROR_OK));
      tauto.
  - destruct cons as [c |], buffer as [b |]; relay_eval;
      try destruct (decide (w_ReleaseBuffer w b fence ≠ GSERROR_OK)) as [Hr | Hr];
      relay_eval.
    all: eexists _, _; (split; [reflexivity |]).
    all: split_and!;
      try (split; [ intros Hx; discriminate | intros [Hx | Hx]; discriminate ]);
      try (split; [ intros _; auto | reflexivity ]);
      try (intros Hx; first [ discriminate | reflexivity ]);
      try (intros c' b' Hc' Hb'; discriminate).
    all: intros c' b' Hc' Hb'; simplify_eq; split_and!; try reflexivity.
    all: split; intros Hx; try discriminate; try reflexivity; try assumption;
      try contradiction.
    all: destruct (decide (w_ReleaseBuffer w b' fence = GSERROR_OK)); tauto.
Qed.

(** A forward cycle depends on the world only through the answer to the
    acquire and the answer to the attach-and-flush of the acquired buffer.
    In particular what the camera queue answers to the release of a buffer
    the encoder refused is ignored. *)
Theorem RelayBufferFromCamera_reads_two_answers
  (w w' : World) (s : SurfaceBufferRelay) :
  w_AcquireBuffer w = w_AcquireBuffer w' ->
  (forall b, w_AttachAndFlushBuffer w b (-1) (full_extent b)
             = w_AttachAndFlushBuffer w' b (-1) (full_extent b)) ->
  RelayBufferFromCamera w s = RelayBufferFromCamera w' s.
Proof.
  intros Hacq Hatt.
  destruct (relay_input_cases w s)
    as [Hnull | [(c & e & Hc & He & Hno) | (c & e & b & fence & ts & Hc & He & Ha)]].
  - rewrite !RelayBufferFromCamera_not_ready by assumption. reflexivity.
  - rewrite (RelayBufferFromCamera_no_buffer w s c e Hc He Hno).
    rewrite Hacq in Hno.
    rewrite (RelayBufferFromCamera_no_buffer w' s c e Hc He Hno). reflexivity.
  - rewrite (RelayBufferFromCamera_acquired w s c e b fence ts Hc He Ha).
    rewrite Hacq in Ha.
    rewrite (RelayBufferFromCamera_acquired w' s c e b fence ts Hc He Ha).
    rewrite (Hatt b). reflexivity.
Qed.

(** For [RelayBufferFromCamera_reads_two_answers]: two worlds that differ in
    everything but the acquire and the attach answers. *)
Lemma RelayBufferFromCamera_reads_two_answers_witness :
  RelayBufferFromCamera (world_ok buffer_imu) bound_idle
  = RelayBufferFromCamera world_return_fails bound_idle.
Proof.
  apply (RelayBufferFromCamera_reads_two_answers
           (world_ok buffer_imu) world_return_fails bound_idle).
  - reflexivity.
  - intros b. reflexivity.
Defined.

(** The acquire fence.  With both endpoints set, a cycle closes the fence it
    was handed exactly when the acquire succeeded with a buffer and the fence
    is not negative, and then as the action right after the acquire; the
    fence of a failed acquire is never closed. *)
Theorem acquire_fence_closed_iff_valid
  (w : World) (s : SurfaceBufferRelay) (c : ConsumerSurfaceRef) (e : SurfaceRef) :
  cameraConsumerSurface_ s = Some c ->
  encoderSurface_ s = Some e ->
  closed_fds (log_of (RelayBufferFromCamera w s))
  = match w_AcquireBuffer w with
    | (GSERROR_OK, Some _, fence, _) => if bool_decide (0 <= fence) then [fence] else []
    | _ => []
    end
  /\ (forall pre fd post,
        log_of (RelayBufferFromCamera w s) = pre ++ CloseFd fd :: post ->
        pre = [Upstream c AcquireBuffer]).
Proof.
  intros Hc He.
  destruct (relay_input_cases w s)
    as [[Hnull | Hnull] | [(c' & e' & Hc' & He' & Hno) | (c' & e' & b & fence & ts & Hc' & He' & Ha)]];
    try congruence; simplify_eq.
  - rewrite (RelayBufferFromCamera_no_buffer w s c e Hc He Hno).
    destruct (w_AcquireBuffer w) as [[[ret buffer] fence] timestamp].
    cbn in Hno. split.
    + destruct Hno as [Hret | ->]; [ destruct ret; [ contradiction | ] | destruct ret ];
        reflexivity.
    + intros pre fd post Hlog. cbn in Hlog.
      destruct pre as [| ev [| ev' pre]]; cbn in Hlog; simplify_eq.
  - rewrite (RelayBufferFromCamera_acquired w s c e b fence ts Hc He Ha), Ha.
    destruct (decide (w_AttachAndFlushBuffer w b (-1) (full_extent b) ≠ GSERROR_OK));
      destruct (bool_decide (0 <= fence)), (ExtractImuData (Some b)).1,
        (imuCallback_ s) as [f |]; cbn.
    all: split; [ reflexivity | ].
    all: intros pre fd post Hlog.
    all: repeat (destruct pre as [| ? pre]; cbn in *; simplify_eq; try reflexivity).
Qed.

(** For [acquire_fence_closed_iff_valid]: fence 5 comes with the buffer. *)
Lemma acquire_fence_closed_iff_valid_witness :
  closed_fds (log_of (RelayBufferFromCamera (world_ok buffer_imu) bound_idle))
  = match w_AcquireBuffer (world_ok buffer_imu) with
    | (GSERROR_OK, Some _, fence, _) => if bool_decide (0 <= fence) then [fence] else []
    | _ => []
    end
  /\ (forall pre fd post,
        log_of (RelayBufferFromCamera (world_ok buffer_imu) bound_idle)
        = pre ++ CloseFd fd :: post ->
        pre = [Upstream 1 AcquireBuffer]).
Proof.
  apply (acquire_fence_closed_iff_valid (world_ok buffer_imu) bound_idle 1 7).
  - reflexivity.
  - reflexivity.
Defined.

(** The callback a cycle invokes is the one set last, and it is given the
    frame index of the state the cycle starts in: after
    [SetImuDataCallback], a following cycle invokes no other callback, and
    none at all when the callback was set to empty. *)
Theorem callback_invoked_is_the_one_set_last
  (callback : option CallbackRef) (w : World) (s : SurfaceBufferRelay)
  (f : CallbackRef) (i : Z) (d : list byte) :
  In (InvokeImuCallback f i d)
     (log_of ((SetImuDataCallback callback;; RelayBufferFromCamera w) s)) ->
  callback = Some f /\ i = frameIndex_ s.
Proof.
  cbv [mbind M_bind SetImuDataCallback store].
  set (s1 := apply_store (St_imuCallback callback) s).
  destruct (relay_input_cases w s1)
    as [Hnull | [(c & e & Hc & He & Hno) | (c & e & b & fence & ts & Hc & He & Ha)]].
  - rewrite RelayBufferFromCamera_not_ready by assumption. cbn.
    intros [Hx | []]. discriminate.
  - rewrite (RelayBufferFromCamera_no_buffer w s1 c e Hc He Hno). cbn.
    intros [Hx | [Hx | []]]; discriminate.
  - rewrite (RelayBufferFromCamera_acquired w s1 c e b fence ts Hc He Ha).
    change (imuCallback_ s1) with callback.
    change (frameIndex_ s1) with (frameIndex_ s).
    destruct (decide (w_AttachAndFlushBuffer w b (-1) (full_extent b) ≠ GSERROR_OK));
      destruct (bool_decide (0 <= fence)), (ExtractImuData (Some b)).1,
        callback as [g |]; cbn.
    all: intros Hin; destruct_or!; simplify_eq; try contradiction.
    all: split; reflexivity.
Qed.

(** For [callback_invoked_is_the_one_set_last]: callback 42 replaces
    callback 9 before the first frame. *)
Lemma callback_invoked_is_the_one_set_last_witness :
  Some 42 = Some 42 /\ 0 = frameIndex_ bound_idle.
Proof.
  apply (callback_invoked_is_the_one_set_last
           (Some 42) (world_ok buffer_imu) bound_idle 42 0 imu768).
  vm_compute. do 3 right. left. reflexivity.
Defined.

(** The registry is keyed by address alone.  When a second cycle forwards a
    buffer with the address of one that is still registered, the entry is
    replaced, not added: after both cycles the registry is the original one
    with the single entry of the second buffer under that address, while the
    frame index has advanced twice. *)
Theorem forwarding_same_address_twice_keeps_one_entry
  (w1 w2 : World) (s : SurfaceBufferRelay) (c : ConsumerSurfaceRef) (e : SurfaceRef)
  (b1 b2 : SurfaceBuffer) (fence1 timestamp1 fence2 timestamp2 : Z) :
  cameraConsumerSurface_ s = Some c ->
  encoderSurface_ s = Some e ->
  w_AcquireBuffer w1 = (GSERROR_OK, Some b1, fence1, timestamp1) ->
  w_AttachAndFlushBuffer w1 b1 (-1) (full_extent b1) = GSERROR_OK ->
  w_AcquireBuffer w2 = (GSERROR_OK, Some b2, fence2, timestamp2) ->
  w_AttachAndFlushBuffer w2 b2 (-1) (full_extent b2) = GSERROR_OK ->
  GetVirAddr b2 = GetVirAddr b1 ->
  exists s2 log,
    (RelayBufferFromCamera w1;; RelayBufferFromCamera w2) s = Normal tt s2 log
    /\ bufferMap_ s2 = <[GetVirAddr b1 := b2]> (bufferMap_ s)
    /\ registered log = [GetVirAddr b1; GetVirAddr b1]
    /\ frameIndex_ s2 = (frameIndex_ s + 2) mod 2 ^ 32.
Proof.
  intros Hc He Ha1 Hok1 Ha2 Hok2 Haddr.
  cbv [mbind M_bind].
  rewrite (RelayBufferFromCamera_acquired w1 s c e b1 fence1 timestamp1 Hc He Ha1).
  rewrite decide_False by (intros H; apply H, Hok1).
  set (s1 := apply_store St_frameIndex_incr
               (apply_store (St_bufferMap_insert (GetVirAddr b1) b1) s)).
  assert (Hc1 : cameraConsumerSurface_ s1 = Some c) by exact Hc.
  assert (He1 : encoderSurface_ s1 = Some e) by exact He.
  rewrite (RelayBufferFromCamera_acquired w2 s1 c e b2 fence2 timestamp2 Hc1 He1 Ha2).
  rewrite decide_False by (intros H; apply H, Hok2).
  eexists _, _. split; [ reflexivity | ].
  split_and!.
  - cbn. rewrite Haddr. apply insert_insert_eq.
  - rewrite Haddr.
    destruct (bool_decide (0 <= fence1)), (bool_decide (0 <= fence2)),
      (ExtractImuData (Some b1)).1, (ExtractImuData (Some b2)).1,
      (imuCallback_ s), (imuCallback_ s1); reflexivity.
  - cbn. unfold uint32_modulus.
    rewrite Zplus_mod_idemp_l. f_equal. lia.
Qed.

(** For [forwarding_same_address_twice_keeps_one_entry]: the camera queue
    hands out the same buffer twice. *)
Lemma forwarding_same_address_twice_witness :
  exists s2 log,
    (RelayBufferFromCamera (world_ok buffer_imu);;
     RelayBufferFromCamera (world_ok buffer_imu)) bound_idle = Normal tt s2 log
    /\ bufferMap_ s2 = <[GetVirAddr buffer_imu := buffer_imu]> (bufferMap_ bound_idle)
    /\ registered log = [GetVirAddr buffer_imu; GetVirAddr buffer_imu]
    /\ frameIndex_ s2 = (frameIndex_ bound_idle + 2) mod 2 ^ 32.
Proof.
  apply (forwarding_same_address_twice_keeps_one_entry
           (world_ok buffer_imu) (world_ok buffer_imu) bound_idle 1 7
           buffer_imu buffer_imu 5 1000 5 1000).
  - reflexivity.
  - reflexivity.
  - reflexivity.
  - reflexivity.
  - reflexivity.
  - reflexivity.
  - reflexivity.
Defined.

(** ** Further properties: teardown *)

(** Teardown does not hand buffers back.  Whatever is in flight, [Release]
    (and so the destructor) makes no call on the encoder queue, so the
    release listener stays registered there, and its only possible call on
    the camera queue is the unregistration of the listener: no buffer in the
    registry is released to the camera queue, the entries are just dropped. *)
Theorem teardown_drops_buffers_in_flight (s : SurfaceBufferRelay) :
  exists log,
    Release s = Normal tt (released s) log
    /\ Destructor s = Normal tt (released s) log
    /\ bufferMap_ (released s) = ∅
    /\ downstream_calls log = []
    /\ (forall call, In call (upstream_calls log) -> call = UnregisterConsumerListener).
Proof.
  eexists. split; [ apply Release_outcome | ].
  split; [ apply Release_outcome | ].
  split_and!; try reflexivity.
  - destruct (cameraConsumerSurface_ s); reflexivity.
  - intros call. destruct (cameraConsumerSurface_ s); cbn; intros Hin;
      destruct_or!; try contradiction; congruence.
Qed.

(** ** Further properties: any sequence of calls *)

Lemma well_locked_from_app (held : bool) (l1 l2 : list Event) :
  well_locked_from held l1 = true ->
  well_locked_from false l2 = true ->
  well_locked_from held (l1 ++ l2) = true.
Proof.
  revert held. induction l1 as [| ev l1 IH]; intros held H1 H2.
  - destruct held; [ discriminate | exact H2 ].
  - destruct ev; cbn in *; apply andb_true_iff in H1 as [Ha Hb];
      apply andb_true_iff; split; auto.
Qed.

Lemma registered_app (l1 l2 : list Event) :
  registered (l1 ++ l2) = registered l1 ++ registered l2.
Proof. apply omap_app. Qed.

(** What one call can do to the registry and the frame index. *)
Lemma perform_cases (c : Call) (s : SurfaceBufferRelay) :
  (perform c s = NullDeref []
   /\ exists w b fence,
        c = Call_OnEncoderReleaseBuffer w (Some b) fence /\ encoderSurface_ s = None)
  \/ exists s' log,
       perform c s = Normal tt s' log
       /\ well_locked_from false log = true
       /\ ((bufferMap_ s' = bufferMap_ s /\ frameIndex_ s' = frameIndex_ s
            /\ registered log = [])
           \/ (exists b, bufferMap_ s' = <[GetVirAddr b := b]> (bufferMap_ s)
                         /\ frameIndex_ s' = (frameIndex_ s + 1) mod uint32_modulus
                         /\ registered log = [GetVirAddr b])
           \/ (exists k, bufferMap_ s' = delete k (bufferMap_ s)
                         /\ frameIndex_ s' = frameIndex_ s
                         /\ registered log = [])
           \/ (bufferMap_ s' = ∅ /\ frameIndex_ s' = frameIndex_ s
               /\ registered log = [])).
Proof.
  destruct c as [w width height format | | w enc | cb | w | w buffer fence | ]; cbn [perform].
  - right.
    destruct (Init_fields w width height format s)
      as (r & s' & log & Hrun & _ & Hm & _ & Hi & _ & Hl & Hreg & _).
    exists s', log. cbv [mbind M_bind mret M_ret]. rewrite Hrun, app_nil_r.
    split_and!; [ reflexivity | exact Hl | left; split_and!; assumption ].
  - right. exists s, []. split_and!; [ reflexivity | reflexivity | ].
    left. split_and!; reflexivity.
  - right. destruct s as [cons prod en regs cbk idx run].
    destruct enc as [e |]; relay_eval;
      [ destruct (decide (w_RegisterReleaseListener w ≠ GSERROR_OK)); relay_eval | ].
    all: eexists _, _; split_and!; [ reflexivity | reflexivity | ].
    all: left; split_and!; reflexivity.
  - right. eexists _, _. split_and!; [ reflexivity | reflexivity | ].
    left. split_and!; reflexivity.
  - right. destruct (isRunning_ s) eqn:Hrun.
    + rewrite (OnBufferAvailable_running w s Hrun).
      destruct (relay_input_cases w s)
        as [Hnull | [(c & e & Hc & He & Hno) | (c & e & b & fence & ts & Hc & He & Ha)]].
      * rewrite RelayBufferFromCamera_not_ready by assumption.
        eexists _, _. split_and!; [ reflexivity | reflexivity | ].
        left. split_and!; reflexivity.
      * rewrite (RelayBufferFromCamera_no_buffer w s c e Hc He Hno).
        eexists _, _. split_and!; [ reflexivity | reflexivity | ].
        left. split_and!; reflexivity.
      * rewrite (RelayBufferFromCamera_acquired w s c e b fence ts Hc He Ha).
        destruct (decide (w_AttachAndFlushBuffer w b (-1) (full_extent b) ≠ GSERROR_OK));
          eexists _, _; (split; [ reflexivity | ]).
        all: destruct (bool_decide (0 <= fence)), (ExtractImuData (Some b)).1,
               (imuCallback_ s) as [f |]; cbn.
        all: split; [ reflexivity | ].
        all: first [ left; split_and!; reflexivity
                   | right; left; exists b; split_and!; reflexivity ].
    + rewrite (OnBufferAvailable_stopped w s Hrun).
      eexists _, _. split_and!; [ reflexivity | reflexivity | ].
      left. split_and!; reflexivity.
  - destruct (OnEncoderReleaseBuffer_cases w buffer fence s)
      as [(Hb & Hrun) | [(b & Hb & He & Hrun) | (b & e & Hb & He & Hrun)]];
      rewrite Hrun.
    + right. eexists _, _. split_and!; [ reflexivity | reflexivity | ].
      left. split_and!; reflexivity.
    + left. split; [ reflexivity | ]. exists w, b, fence. subst buffer. split; [ reflexivity | exact He ].
    + right. eexists _, _. split; [ reflexivity | ].
      destruct (cameraConsumerSurface_ s); cbn; (split; [ reflexivity | ]).
      all: right; right; left; exists (GetVirAddr b); split_and!; reflexivity.
  - right. rewrite Release_outcome. eexists _, _. split; [ reflexivity | ].
    destruct (cameraConsumerSurface_ s); cbn; (split; [ reflexivity | ]).
    all: right; right; right; split_and!; reflexivity.
Qed.

Lemma perform_all_cons (c : Call) (cs : list Call) (s : SurfaceBufferRelay) :
  perform_all (c :: cs) s
  = match perform c s with
    | Normal _ s1 l1 =>
        match perform_all cs s1 with
        | Normal u s2 l2 => Normal u s2 (l1 ++ l2)
        | NullDeref l2 => NullDeref (l1 ++ l2)
        end
    | NullDeref l1 => NullDeref l1
    end.
Proof. reflexivity. Qed.

Lemma perform_all_invariants (cs : list Call) (s s' : SurfaceBufferRelay) (log : list Event) :
  registry_keyed s ->
  frame_in_range s ->
  perform_all cs s = Normal tt s' log ->
  registry_keyed s'
  /\ frame_in_range s'
  /\ frameIndex_ s' = (frameIndex_ s + Z.of_nat (length (registered log))) mod uint32_modulus.
Proof.
  revert s log. induction cs as [| c cs IH]; intros s log Hkey Hrange Hrun.
  - cbv [perform_all mret M_ret] in Hrun. simplify_eq.
    split_and!; try assumption.
    cbn. rewrite Z.add_0_r, Z.mod_small; [ reflexivity | exact Hrange ].
  - rewrite perform_all_cons in Hrun.
    destruct (perform_cases c s) as [(Hfault & _) | (s1 & l1 & Hstep & _ & Hcases)].
    { rewrite Hfault in Hrun. discriminate. }
    rewrite Hstep in Hrun.
    destruct (perform_all cs s1) as [[] s2 l2 |] eqn:Hrest; [ | discriminate ].
    simplify_eq.
    assert (Hmod : 0 < uint32_modulus) by (unfold uint32_modulus; lia).
    assert (Hkey1 : registry_keyed s1).
    { unfold registry_keyed in *.
      destruct Hcases as [(Hm & _) | [(b & Hm & _) | [(k & Hm & _) | (Hm & _)]]];
        rewrite Hm; intros k' b'.
      - apply Hkey.
      - destruct (decide (GetVirAddr b = k')) as [<- | Hne].
        + rewrite lookup_insert_eq. congruence.
        + rewrite lookup_insert_ne by assumption. apply Hkey.
      - destruct (decide (k = k')) as [<- | Hne].
        + rewrite lookup_delete_eq. discriminate.
        + rewrite lookup_delete_ne by assumption. apply Hkey.
      - rewrite lookup_empty. discriminate. }
    assert (Hstep_idx : frame_in_range s1
                        /\ frameIndex_ s1
                           = (frameIndex_ s + Z.of_nat (length (registered l1)))
                               mod uint32_modulus).
    { unfold frame_in_range in *.
      destruct Hcases as [(_ & Hi & Hr) | [(b & _ & Hi & Hr) | [(k & _ & Hi & Hr) | (_ & Hi & Hr)]]];
        rewrite Hi, Hr; cbn [length]; split;
        try (apply Z.mod_pos_bound; exact Hmod);
        try exact Hrange;
        try reflexivity;
        rewrite Z.add_0_r, Z.mod_small; try reflexivity; exact Hrange. }
    destruct Hstep_idx as [Hrange1 Hidx1].
    destruct (IH s1 l2 Hkey1 Hrange1 Hrest) as (Hkey2 & Hrange2 & Hidx2).
    split_and!; try assumption.
    rewrite Hidx2, Hidx1, registered_app, length_app, Nat2Z.inj_add.
    rewrite Zplus_mod_idemp_l. f_equal. lia.
Qed.

(** Two invariants of the engine.  Along any sequence of calls that returns,
    started in a state that has them (the constructed engine does), every
    registry entry stays filed under its buffer's own virtual address, and
    the frame index stays a uint32 value. *)
Theorem registry_and_counter_invariants
  (cs : list Call) (s s' : SurfaceBufferRelay) (log : list Event) :
  registry_keyed s ->
  frame_in_range s ->
  perform_all cs s = Normal tt s' log ->
  registry_keyed s' /\ frame_in_range s'.
Proof.
  intros Hkey Hrange Hrun.
  destruct (perform_all_invariants cs s s' log Hkey Hrange Hrun) as (H1 & H2 & _).
  split; assumption.
Qed.

(** The frame index counts the registrations.  Along any sequence of calls
    that returns, the frame index at the end is the one at the start plus the
    number of registry insertions made, modulo 2^32: it moves only when a
    buffer is forwarded, never on a setup call, a failed cycle, a release
    callback or a teardown, and [Init] and [Release] do not reset it. *)
Theorem frame_index_counts_registrations
  (cs : list Call) (s s' : SurfaceBufferRelay) (log : list Event) :
  registry_keyed s ->
  frame_in_range s ->
  perform_all cs s = Normal tt s' log ->
  frameIndex_ s' = (frameIndex_ s + Z.of_nat (length (registered log))) mod 2 ^ 32.
Proof.
  intros Hkey Hrange Hrun.
  destruct (perform_all_invariants cs s s' log Hkey Hrange Hrun) as (_ & _ & H3).
  exact H3.
Qed.

(** The registry mutex in any sequence of calls, whether it returns or stops
    at a fault: the mutex is taken only when free, the registry is written
    only while it is held, no queue call, callback or other write happens
    while it is held, and it is free at the end. *)
Theorem registry_mutex_discipline (cs : list Call) (s : SurfaceBufferRelay) :
  well_locked_from false (log_of (perform_all cs s)) = true.
Proof.
  revert s. induction cs as [| c cs IH]; intros s.
  - reflexivity.
  - rewrite perform_all_cons.
    destruct (perform_cases c s) as [(Hfault & _) | (s1 & l1 & Hstep & Hl1 & _)].
    + rewrite Hfault. reflexivity.
    + rewrite Hstep. specialize (IH s1).
      destruct (perform_all cs s1) as [u s2 l2 | l2]; cbn [log_of] in *;
        apply well_locked_from_app; assumption.
Qed.

(** Faults.  Of all entry points only the release callback can stop at a null
    dereference, and only when it carries a buffer while the encoder surface
    is null; [Init], [GetCameraSurface], [SetEncoderSurface],
    [SetImuDataCallback], [OnBufferAvailable] and [Release] return in every
    state and every world. *)
Theorem only_unbound_release_callback_faults (c : Call) (s : SurfaceBufferRelay) :
  (exists log, perform c s = NullDeref log)
  <-> exists w b fence,
        c = Call_OnEncoderReleaseBuffer w (Some b) fence /\ encoderSurface_ s = None.
Proof.
  split.
  - intros (log & Hfault).
    destruct (perform_cases c s) as [(_ & Hwhy) | (s1 & l1 & Hstep & _)].
    + exact Hwhy.
    + rewrite Hstep in Hfault. discriminate.
  - intros (w & b & fence & -> & He).
    exists []. cbn [perform]. apply OnEncoderReleaseBuffer_unbound, He.
Qed.

(** For [registry_and_counter_invariants]: a whole session from the
    constructor on. *)
Lemma registry_and_counter_invariants_witness :
  registry_keyed (released one_in_flight) /\ frame_in_range (released one_in_flight).
Proof.
  eapply (registry_and_counter_invariants session constructed (released one_in_flight)).
  - intros k b Hk. vm_compute in Hk. discriminate.
  - vm_compute. split; [ discriminate | reflexivity ].
  - vm_compute. reflexivity.
Defined.

(** For [frame_index_counts_registrations]: the session forwards one frame. *)
Lemma frame_index_counts_registrations_witness :
  exists log,
    perform_all session constructed = Normal tt (released one_in_flight) log
    /\ registered log = [8192]
    /\ frameIndex_ (released one_in_flight)
       = (frameIndex_ constructed + Z.of_nat (length (registered log))) mod 2 ^ 32.
Proof.
  eexists. split; [ vm_compute; reflexivity | ].
  split; [ vm_compute; reflexivity | ].
  eapply (frame_index_counts_registrations session constructed (released one_in_flight)).
  - intros k b Hk. vm_compute in Hk. discriminate.
  - vm_compute. split; [ discriminate | reflexivity ].
  - vm_compute. reflexivity.
Defined.

(** ** Further properties: initialising again *)

(** [Init] on a running engine whose consumer surface cannot be created:
    the field is overwritten with null, the listener of the surface held
    before is not unregistered, the running flag stays true, and the result
    is [DCAMERA_INIT_ERR].  A notification that follows passes the running
    check and returns at the null check of the cycle, without any action. *)
Theorem failed_reinit_leaves_engine_running_without_camera
  (w0 w : World) (width height format : Z) (s : SurfaceBufferRelay) :
  isRunning_ s = true ->
  w_Create w0 = None ->
  Init w0 width height format s
  = Normal DCAMERA_INIT_ERR (apply_store (St_cameraConsumerSurface None) s)
      [IConsumerSurface_Create; Write (St_cameraConsumerSurface None)]
  /\ isRunning_ (apply_store (St_cameraConsumerSurface None) s) = true
  /\ OnBufferAvailable w (apply_store (St_cameraConsumerSurface None) s)
     = Normal tt (apply_store (St_cameraConsumerSurface None) s) [].
Proof.
  intros Hrun Hcreate.
  split_and!.
  - unfold Init. rewrite Hcreate. destruct s; reflexivity.
  - exact Hrun.
  - rewrite OnBufferAvailable_running by exact Hrun.
    apply RelayBufferFromCamera_not_ready. left. reflexivity.
Qed.

(** For [failed_reinit_leaves_engine_running_without_camera]: an idle, bound
    engine is initialised again and the surface creation fails. *)
Lemma failed_reinit_witness :
  Init world_create_fails 1920 1080 12 bound_idle
  = Normal DCAMERA_INIT_ERR (apply_store (St_cameraConsumerSurface None) bound_idle)
      [IConsumerSurface_Create; Write (St_cameraConsumerSurface None)]
  /\ isRunning_ (apply_store (St_cameraConsumerSurface None) bound_idle) = true
  /\ OnBufferAvailable (world_ok buffer_imu)
       (apply_store (St_cameraConsumerSurface None) bound_idle)
     = Normal tt (apply_store (St_cameraConsumerSurface None) bound_idle) [].
Proof.
  apply (failed_reinit_leaves_engine_running_without_camera
           world_create_fails (world_ok buffer_imu) 1920 1080 12 bound_idle).
  - reflexivity.
  - reflexivity.
Defined.

(** C3 (as the code has it) at an idle engine whose encoder queue refuses a
    buffer that carries 768 bytes of metadata: the forward fails, the state
    is unchanged, and the callback has been invoked once, with frame index
    0 and those bytes. *)
Lemma C3_forward_failure_callback_witness :
  exists log,
    RelayBufferFromCamera world_attach_fails bound_idle = Normal tt bound_idle log
    /\ imu_calls log = [(0, imu768)]
    /\ In (InvokeImuCallback 9 0 imu768) log
    /\ In (Upstream 1 (ReleaseBuffer buffer_imu (-1))) log.
Proof.
  destruct (C3_metadata_callback_precedes_forward world_attach_fails bound_idle)
    as (s' & log & Hrun & _ & _ & _ & Hfailed).
  destruct (Hfailed 1 7 9 buffer_imu 5 1000 eq_refl eq_refl eq_refl eq_refl)
    as (Hstate & Hcalls & Hin & Hback).
  - vm_compute. discriminate.
  - reflexivity.
  - reflexivity.
  - exists log. rewrite Hstate in Hrun.
    split; [ exact Hrun | ].
    split; [ exact Hcalls | ].
    split; [ exact Hin | exact Hback ].
Defined.
